(** * The [swh graph] reindexing command ([src/script.py])

    A shallow embedding of the command group [graph_cli_group] and of its
    sub-command [reindex], followed by the properties of the reindexing
    run: which external generators are started, in which order, on which
    arguments, and what happens to the files on disk.

    The script is effectful: it probes and changes the filesystem, mutates
    the configuration dictionary it shares with the click context, writes
    log lines and starts external processes.  These effects are threaded
    through a state-and-exception monad; every observable action is also
    appended to a chronological trace. *)

From Stdlib Require Import String Ascii NArith List Bool Lia.
From stdpp Require Import base option list gmap strings.

Local Open Scope N_scope.
Set Warnings "-register-all".

(** ** Python text *)

(** A Python [str] is a sequence of Unicode code points. *)
Abbreviation pystr := (list N).

Module PyStr.

(** A literal of the source, written as a Rocq string. *)
Definition lit (s : string) : pystr :=
  map N_of_ascii (list_ascii_of_string s).

(** The double-quote character, which occurs in one message of the
    script. *)
Definition dquote : pystr := [34].

(** [Py_UNICODE_ISSPACE]: the code points removed by [str.strip()] when it
    is called without argument. *)
Definition isspace (c : N) : bool :=
  ((9 <=? c) && (c <=? 13))
  || ((28 <=? c) && (c <=? 32))
  || (c =? 133) || (c =? 160) || (c =? 5760)
  || ((8192 <=? c) && (c <=? 8202))
  || (c =? 8232) || (c =? 8233) || (c =? 8239) || (c =? 8287)
  || (c =? 12288).

Fixpoint lstrip (s : pystr) : pystr :=
  match s with
  | c :: s' => if isspace c then lstrip s' else s
  | [] => []
  end.

Definition rstrip (s : pystr) : pystr := rev (lstrip (rev s)).

(** [s.strip()] *)
Definition strip (s : pystr) : pystr := rstrip (lstrip s).

(** ["%s" % x] for an optional string: [None] prints as [None]. *)
Definition percent_s (x : option pystr) : pystr :=
  match x with
  | Some s => s
  | None => lit "None"
  end.

End PyStr.
Import PyStr.

(** ** Values, dictionaries, files *)

(** The values a configuration dictionary holds: strings and nested
    dictionaries (kept as item lists). *)
Inductive pyval :=
| PStr (s : pystr)
| PDict (items : list (pystr * pyval)).

Abbreviation dict := (gmap pystr pyval).

(** What a path names.  [Text t] is a file whose text-mode [read()]
    returns [t] (decoding and newline translation belong to the I/O
    layer); the other two exist, but opening or decoding them fails. *)
Inductive file :=
| Text (t : pystr)
| NoPermission
| Undecodable.

Abbreviation filesystem := (gmap pystr file).

(** Dictionaries are mutable objects reached through references. *)
Abbreviation loc := nat.

Inductive error :=
| ValueError (msg : pystr)
| KeyError (key : pystr)
| TypeError
| FileNotFoundError (path : pystr)
| PermissionError (path : pystr)
| UnicodeDecodeError (path : pystr)
| CommandFailed (why : pystr)
| OtherError (why : pystr).

(** [Rust(bin, *args, conf=conf)]: the executable, its arguments and the
    contents of the configuration dictionary when the command is run. *)
Record rust_cmd := Rust {
  bin : pystr;
  args : list pystr;
  conf : dict
}.

(** Observable actions, in the order they happen. *)
Inductive event :=
| EConfigRead (config_file : option pystr)
| EExists (path : pystr)
| EOpenRead (path : pystr)
| EUnlink (path : pystr)
| ELog (msg : pystr)
| ERun (c : rust_cmd).

(** ** What lies outside the script

    [swh.core.config.read], the executables behind [swh.graph.shell.Rust]
    and the operating system's permission checks are not part of the
    script.  A [world] fixes their behaviour; every theorem quantifies
    over it. *)
Record world := World {
  (** [config.read(config_file, DEFAULT_CONFIG)] returns a dictionary or
      raises. *)
  config_read :
    option pystr -> gmap pystr (pystr * pyval) -> filesystem -> error + dict;
  (** [Rust(...).run()]: the process may change any file and either
      succeeds or makes [run] raise. *)
  spawn : rust_cmd -> filesystem -> filesystem * option error;
  (** [os.unlink] of an existing path may be refused. *)
  unlink_refused : pystr -> filesystem -> option error
}.

(** ** State and monad *)

Record state := State {
  fs : filesystem;
  heap : gmap loc dict;
  ctx_obj : option (gmap pystr loc);
  trace : list event
}.

Inductive result (A : Type) :=
| Ok (a : A)
| Raise (e : error).
Arguments Ok {A} a.
Arguments Raise {A} e.

Definition M (A : Type) : Type := state -> state * result A.

Definition ret {A} (a : A) : M A := fun s => (s, Ok a).

Definition raise {A} (e : error) : M A := fun s => (s, Raise e).

Definition bind {A B} (m : M A) (k : A -> M B) : M B :=
  fun s =>
    match m s with
    | (s', Ok a) => k a s'
    | (s', Raise e) => (s', Raise e)
    end.

Notation "'let*' x ':=' m 'in' k" := (bind m (fun x => k))
  (at level 10, x name, m at level 100, k at level 200).
Notation "m ';;' k" := (bind m (fun _ => k))
  (at level 100, k at level 200, right associativity).

Definition emit (e : event) (s : state) : state :=
  State (fs s) (heap s) (ctx_obj s) (trace s ++ [e]).

(** ** The runtime operations the script calls *)

(** [os.path.exists(p)] *)
Definition os_path_exists (p : pystr) : M bool :=
  fun s =>
    (emit (EExists p) s,
     Ok (match fs s !! p with Some _ => true | None => false end)).

(** [with open(p, "rt") as f: f.read()] *)
Definition open_read (p : pystr) : M pystr :=
  fun s =>
    (emit (EOpenRead p) s,
     match fs s !! p with
     | None => Raise (FileNotFoundError p)
     | Some (Text t) => Ok t
     | Some NoPermission => Raise (PermissionError p)
     | Some Undecodable => Raise (UnicodeDecodeError p)
     end).

(** [os.unlink(p)] *)
Definition os_unlink (w : world) (p : pystr) : M unit :=
  fun s =>
    let s' := emit (EUnlink p) s in
    match fs s !! p with
    | None => (s', Raise (FileNotFoundError p))
    | Some _ =>
        match unlink_refused w p (fs s) with
        | Some e => (s', Raise e)
        | None =>
            (State (delete p (fs s)) (heap s) (ctx_obj s) (trace s'), Ok tt)
        end
    end.

(** [logging.info(msg)] *)
Definition logging_info (msg : pystr) : M unit :=
  fun s => (emit (ELog msg) s, Ok tt).

(** [Rust(bin, *args, conf=conf).run()], [conf] being a reference. *)
Definition rust_run (w : world) (b : pystr) (a : list pystr) (c : loc)
  : M unit :=
  fun s =>
    let cmd := Rust b a (heap s !!! c) in
    let (fs', failure) := spawn w cmd (fs s) in
    let s' := State fs' (heap s) (ctx_obj s) (trace s ++ [ERun cmd]) in
    match failure with
    | None => (s', Ok tt)
    | Some e => (s', Raise e)
    end.

(** [key in d], [d] being a reference to a dictionary. *)
Definition dict_contains (d : loc) (key : pystr) : M bool :=
  fun s =>
    (s, Ok (match (heap s !!! d) !! key with Some _ => true | None => false end)).

(** [d[key] = v] *)
Definition dict_set (d : loc) (key : pystr) (v : pyval) : M unit :=
  fun s =>
    (State (fs s) (<[d := <[key := v]> (heap s !!! d)]> (heap s))
       (ctx_obj s) (trace s),
     Ok tt).

(** [ctx.ensure_object(dict)] *)
Definition ensure_object : M unit :=
  fun s =>
    match ctx_obj s with
    | Some _ => (s, Ok tt)
    | None => (State (fs s) (heap s) (Some ∅) (trace s), Ok tt)
    end.

(** [ctx.obj[key] = d] *)
Definition ctx_obj_set (key : pystr) (d : loc) : M unit :=
  fun s =>
    match ctx_obj s with
    | Some o => (State (fs s) (heap s) (Some (<[key := d]> o)) (trace s), Ok tt)
    | None => (s, Raise TypeError)
    end.

(** [ctx.obj[key]] *)
Definition ctx_obj_get (key : pystr) : M loc :=
  fun s =>
    match ctx_obj s with
    | Some o =>
        match o !! key with
        | Some d => (s, Ok d)
        | None => (s, Raise (KeyError key))
        end
    | None => (s, Raise TypeError)
    end.

(** [config.read(config_file, defaults)]: the dictionary it returns is a
    new object. *)
Definition config_read_call (w : world) (config_file : option pystr)
    (defaults : gmap pystr (pystr * pyval)) : M loc :=
  fun s =>
    let s' := emit (EConfigRead config_file) s in
    match config_read w config_file defaults (fs s) with
    | inl e => (s', Raise e)
    | inr d =>
        let l := fresh (dom (heap s)) in
        (State (fs s) (<[l := d]> (heap s)) (ctx_obj s) (trace s'), Ok l)
    end.

(** ** The script *)

Definition DEFAULT_CONFIG : gmap pystr (pystr * pyval) :=
  {[ lit "graph" :=
       (lit "dict",
        PDict [(lit "cls", PStr (lit "local")); (lit "grpc_server", PDict [])]) ]}.

Definition no_graph_stanza (config_file : option pystr) : pystr :=
  lit "no " ++ dquote ++ lit "graph" ++ dquote
    ++ lit " stanza found in configuration file " ++ percent_s config_file.

(** The callback of the [graph] command group. *)
Definition graph_cli_group (w : world) (config_file profile : option pystr)
  : M unit :=
  ensure_object;;
  let* conf := config_read_call w config_file DEFAULT_CONFIG in
  let* has_graph := dict_contains conf (lit "graph") in
  if negb has_graph then raise (ValueError (no_graph_stanza config_file))
  else
    ctx_obj_set (lit "config") conf;;
    match profile with
    | Some p => dict_set conf (lit "profile") (PStr p)
    | None => ret tt
    end.

(** [flag or not os.path.exists(p)], with Python's short-circuit. *)
Definition or_not_exists (flag : bool) (p : pystr) : M bool :=
  if flag then ret true
  else let* present := os_path_exists p in ret (negb present).

(** The three blocks of [reindex], in the order of the source. *)

(** Lines 92-97: the Elias-Fano index of the adjacency lists. *)
Definition reindex_ef (w : world) (ef : bool) (graph : pystr) (conf : loc)
  : M unit :=
  let* rebuild := or_not_exists ef (graph ++ lit ".ef") in
  if rebuild then
    logging_info (lit "Recreating Elias-Fano indexes on adjacency lists");;
    rust_run w (lit "swh-graph-index") [lit "ef"; graph] conf
  else ret tt.

(** Lines 99-114: the Elias-Fano index of the arc labels. *)
Definition reindex_labels_ef (w : world) (ef : bool) (graph : pystr)
    (conf : loc) : M unit :=
  let* rebuild := or_not_exists ef (graph ++ lit "-labelled.ef") in
  if rebuild then
    let* text := open_read (graph ++ lit ".nodes.count.txt") in
    let node_count := strip text in
    logging_info (lit "Recreating Elias-Fano indexes on arc labels");;
    rust_run w (lit "swh-graph-index")
      [lit "labels-ef"; graph ++ lit "-labelled"; node_count] conf
  else ret tt.

(** Lines 117-122: the node-type map. *)
Definition reindex_node2type (w : world) (force : bool) (graph : pystr)
    (conf : loc) : M unit :=
  let node2type_fname := graph ++ lit ".node2type.bin" in
  let* rebuild := or_not_exists force node2type_fname in
  if rebuild then
    logging_info (lit "Creating node2type.bin");;
    let* stale := os_path_exists node2type_fname in
    (if stale then os_unlink w node2type_fname else ret tt);;
    rust_run w (lit "swh-graph-node2type") [graph] conf
  else ret tt.

(** The [reindex] command. *)
Definition reindex (w : world) (force ef : bool) (graph : pystr) : M unit :=
  let ef := ef || force in
  let* conf := ctx_obj_get (lit "config") in
  let* has_profile := dict_contains conf (lit "profile") in
  (if negb has_profile
   then dict_set conf (lit "profile") (PStr (lit "release"))
   else ret tt);;
  reindex_ef w ef graph conf;;
  reindex_labels_ef w ef graph conf;;
  reindex_node2type w force graph conf.

(** A command-line run of [swh graph patate GRAPH], the options being
    parsed: click calls the group callback, then the sub-command with the
    same context object; an exception in the former ends the run. *)
Definition main (w : world) (config_file profile : option pystr)
    (force ef : bool) (graph : pystr) : M unit :=
  graph_cli_group w config_file profile;;
  reindex w force ef graph.

(** ** Reading a run *)

(** The events a run appended to the trace it started from. *)
Definition new_events (s s' : state) : list event :=
  drop (length (trace s)) (trace s').

(** The commands started, in order. *)
Definition runs (tr : list event) : list rust_cmd :=
  omap (fun e => match e with ERun c => Some c | _ => None end) tr.

(** The three blocks of [reindex], called steps A, B and C. *)
Inductive step := StepA | StepB | StepC.

(** [belongs graph d st e]: event [e] is one that step [st] can
    produce for the prefix [graph] and the configuration [d]. *)
Inductive belongs (graph : pystr) (d : dict) : step -> event -> Prop :=
| A_exists : belongs graph d StepA (EExists (graph ++ lit ".ef"))
| A_log :
    belongs graph d StepA
      (ELog (lit "Recreating Elias-Fano indexes on adjacency lists"))
| A_run :
    belongs graph d StepA
      (ERun (Rust (lit "swh-graph-index") [lit "ef"; graph] d))
| B_exists : belongs graph d StepB (EExists (graph ++ lit "-labelled.ef"))
| B_open : belongs graph d StepB (EOpenRead (graph ++ lit ".nodes.count.txt"))
| B_log :
    belongs graph d StepB
      (ELog (lit "Recreating Elias-Fano indexes on arc labels"))
| B_run node_count :
    belongs graph d StepB
      (ERun (Rust (lit "swh-graph-index")
               [lit "labels-ef"; graph ++ lit "-labelled"; node_count] d))
| C_exists : belongs graph d StepC (EExists (graph ++ lit ".node2type.bin"))
| C_log : belongs graph d StepC (ELog (lit "Creating node2type.bin"))
| C_unlink : belongs graph d StepC (EUnlink (graph ++ lit ".node2type.bin"))
| C_run :
    belongs graph d StepC (ERun (Rust (lit "swh-graph-node2type") [graph] d)).

(** Lines 89-90 of the script: the state in which step A starts. *)
Definition with_profile (c : loc) (s : state) : state :=
  match (heap s !!! c) !! lit "profile" with
  | Some _ => s
  | None =>
      State (fs s)
        (<[c := <[lit "profile" := PStr (lit "release")]> (heap s !!! c)]> (heap s))
        (ctx_obj s) (trace s)
  end.

(** The events of the test [flag or not os.path.exists(p)]. *)
Definition gate_events (flag : bool) (p : pystr) : list event :=
  if flag then [] else [EExists p].

(** [s] after the events [l]. *)
Definition emits (l : list event) (s : state) : state :=
  State (fs s) (heap s) (ctx_obj s) (trace s ++ l).

(** A sidecar that cannot be read as text. *)
Definition unreadable (f : option file) : Prop :=
  forall t, f <> Some (Text t).

(** The errors of opening and reading [path]. *)
Definition data_unavailable (path : pystr) (e : error) : Prop :=
  e = FileNotFoundError path \/ e = PermissionError path
  \/ e = UnicodeDecodeError path.


(** ** The events of each step, from what the step finds

    What a step appends to the trace is a function of its flag, of the
    configuration and of the files present when it starts. *)

Definition present (f : filesystem) (p : pystr) : bool :=
  match f !! p with Some _ => true | None => false end.

Definition ef_events (ef : bool) (graph : pystr) (d : dict) (f : filesystem)
  : list event :=
  gate_events ef (graph ++ lit ".ef") ++
  if ef || negb (present f (graph ++ lit ".ef"))
  then [ELog (lit "Recreating Elias-Fano indexes on adjacency lists");
        ERun (Rust (lit "swh-graph-index") [lit "ef"; graph] d)]
  else [].

Definition labels_ef_events (ef : bool) (graph : pystr) (d : dict)
    (f : filesystem) : list event :=
  gate_events ef (graph ++ lit "-labelled.ef") ++
  if ef || negb (present f (graph ++ lit "-labelled.ef"))
  then
    EOpenRead (graph ++ lit ".nodes.count.txt")
    :: match f !! (graph ++ lit ".nodes.count.txt") with
       | Some (Text t) =>
           [ELog (lit "Recreating Elias-Fano indexes on arc labels");
            ERun (Rust (lit "swh-graph-index")
                    [lit "labels-ef"; graph ++ lit "-labelled"; strip t] d)]
       | _ => []
       end
  else [].

Definition node2type_events (w : world) (force : bool) (graph : pystr)
    (d : dict) (f : filesystem) : list event :=
  let p := graph ++ lit ".node2type.bin" in
  gate_events force p ++
  if force || negb (present f p)
  then
    [ELog (lit "Creating node2type.bin"); EExists p] ++
    (if present f p
     then
       EUnlink p
       :: match unlink_refused w p f with
          | Some _ => []
          | None => [ERun (Rust (lit "swh-graph-node2type") [graph] d)]
          end
     else [ERun (Rust (lit "swh-graph-node2type") [graph] d)])
  else [].

(** The configuration the generators of a command-line run receive:
    [--profile] first, then the profile of the configuration read, then
    [release]. *)
Definition resolved_conf (profile : option pystr) (d0 : dict) : dict :=
  match profile with
  | Some v => <[lit "profile" := PStr v]> d0
  | None =>
      match d0 !! lit "profile" with
      | Some _ => d0
      | None => <[lit "profile" := PStr (lit "release")]> d0
      end
  end.

(** ** Example worlds and states *)

(** Generators that succeed and write the artifact the interface
    description promises. *)
Definition generators (c : rust_cmd) (f : filesystem)
  : filesystem * option error :=
  if decide (bin c = lit "swh-graph-node2type") then
    match args c with
    | [g] => (<[g ++ lit ".node2type.bin" := Text (lit "types")]> f, None)
    | _ => (f, Some (CommandFailed (lit "usage")))
    end
  else
    match args c with
    | [_; g] => (<[g ++ lit ".ef" := Text (lit "ef")]> f, None)
    | [_; g; _] => (<[g ++ lit ".ef" := Text (lit "ef")]> f, None)
    | _ => (f, Some (CommandFailed (lit "usage")))
    end.

(** A configuration with the [graph] section and no [profile]. *)
Definition graph_conf : dict := {[ lit "graph" := PDict [] ]}.

Definition building_world : world :=
  World (fun _ _ _ => inr graph_conf) generators (fun _ _ => None).

(** Generators that crash without having written anything. *)
Definition crashing_world : world :=
  World (fun _ _ _ => inr graph_conf)
    (fun _ f => (f, Some (CommandFailed (lit "killed"))))
    (fun _ _ => None).

(** A configuration file without the [graph] section, read by a
    [config.read] that adds no default. *)
Definition bare_world : world :=
  World (fun _ _ _ => inr ∅) generators (fun _ _ => None).

(** The state [graph_cli_group] leaves: the configuration is object [0]
    and the context points to it. *)
Definition ready (f : filesystem) : state :=
  State f {[ 0%nat := graph_conf ]} (Some {[ lit "config" := 0%nat ]}) [].

(** The three artifacts of the prefix [g]. *)
Definition all_built : filesystem :=
  {[ lit "g.ef" := Text (lit "ef");
     lit "g-labelled.ef" := Text (lit "ef");
     lit "g.node2type.bin" := Text (lit "types") ]}.

(** Only an old forward index on disk. *)
Definition stale_ef : state := ready {[ lit "g.ef" := Text (lit "old") ]}.

(** Everything built, and the node count beside it. *)
Definition all_built_counted : filesystem :=
  <[ lit "g.nodes.count.txt" := Text (lit "12") ]> all_built.

Definition rebuilt_start : state := ready all_built_counted.

(** A node count that is not a number, between blanks and a CRLF. *)
Definition padded_count : filesystem :=
  {[ lit "g.nodes.count.txt" :=
       Text ([32; 9] ++ lit "twelve nodes" ++ [13; 10]) ]}.

(** The state before [graph_cli_group]: no context object yet. *)
Definition fresh_start : state := State all_built_counted ∅ None [].

(** A [config.read] that raises. *)
Definition unreadable_config_world : world :=
  World (fun _ _ _ => inl (OtherError (lit "cannot parse")))
    generators (fun _ _ => None).

(** ** Basic facts *)

(** [H : In e l] for an explicit list [l]: go through its elements and
    drop those that [e] cannot be. *)
Ltac in_list H :=
  unfold gate_events in H;
  repeat match type of H with
         | context [if ?b then _ else _] => destruct b
         end;
  simpl in H;
  repeat destruct H as [H|H];
  try discriminate H; try (by injection H as <-); try (by destruct H).

Lemma new_events_app s s' l :
  trace s' = trace s ++ l -> new_events s s' = l.
Proof.
  intros H. unfold new_events. rewrite H. apply drop_app_length.
Qed.

Lemma In_runs c tr : In c (runs tr) <-> In (ERun c) tr.
Proof.
  unfold runs. rewrite <- !list_elem_of_In, list_elem_of_omap. split.
  - intros (e & He & Hc). destruct e; try discriminate.
    injection Hc as ->. exact He.
  - intros H. exists (ERun c). auto.
Qed.



(** What the events of steps A and B cannot be. *)
Lemma belongs_AB_not_node2type graph d st e :
  belongs graph d st e -> st <> StepC ->
  (forall p, e <> EUnlink p)
  /\ (forall cmd, e = ERun cmd -> bin cmd = lit "swh-graph-index").
Proof.
  intros H Hst. destruct H; try congruence;
    (split; [discriminate | intros cmd [= <-]; reflexivity || discriminate]).
Qed.

(** *** [str.strip] *)

Lemma lstrip_spec (s : pystr) :
  exists l, s = l ++ lstrip s /\ Forall (fun ch => isspace ch = true) l.
Proof.
  induction s as [|ch s (l & Hs & Hl)]; simpl.
  - by exists [].
  - destruct (isspace ch) eqn:Hch.
    + exists (ch :: l). split; [simpl; by f_equal|by constructor].
    + by exists [].
Qed.

Lemma lstrip_head (s : pystr) ch rest :
  lstrip s = ch :: rest -> isspace ch = false.
Proof.
  induction s as [|a s IH]; simpl; [discriminate|].
  destruct (isspace a) eqn:Ha; [exact IH|].
  by intros [= <- _].
Qed.

Lemma rstrip_spec (s : pystr) :
  exists r, s = rstrip s ++ r /\ Forall (fun ch => isspace ch = true) r.
Proof.
  unfold rstrip. destruct (lstrip_spec (rev s)) as (l & Hs & Hl).
  exists (rev l). split; [|by apply Forall_rev].
  by rewrite <- rev_app_distr, <- Hs, rev_involutive.
Qed.

Lemma rstrip_last (s : pystr) ch rest :
  rstrip s = rest ++ [ch] -> isspace ch = false.
Proof.
  unfold rstrip. intros H. apply (f_equal (@rev N)) in H.
  rewrite rev_involutive, rev_app_distr in H. simpl in H.
  by apply lstrip_head in H.
Qed.

(** [strip] removes a run of whitespace at each end and leaves a text
    that neither starts nor ends with whitespace. *)
Lemma strip_spec (t : pystr) :
  (exists l r,
     t = l ++ strip t ++ r
     /\ Forall (fun ch => isspace ch = true) l
     /\ Forall (fun ch => isspace ch = true) r)
  /\ (forall ch rest, strip t = ch :: rest -> isspace ch = false)
  /\ (forall ch rest, strip t = rest ++ [ch] -> isspace ch = false).
Proof.
  unfold strip.
  destruct (lstrip_spec t) as (l & Ht & Hl).
  destruct (rstrip_spec (lstrip t)) as (r & Hr & Hrs).
  split; [|split].
  - exists l, r. by rewrite <- Hr.
  - intros ch rest H. rewrite H in Hr. simpl in Hr.
    by apply lstrip_head in Hr.
  - intros ch rest. apply rstrip_last.
Qed.

(** ** The three steps, case by case *)

Lemma rust_run_spec w b a c s :
  rust_run w b a c s =
    (State (spawn w (Rust b a (heap s !!! c)) (fs s)).1 (heap s) (ctx_obj s)
       (trace s ++ [ERun (Rust b a (heap s !!! c))]),
     match (spawn w (Rust b a (heap s !!! c)) (fs s)).2 with
     | None => Ok tt
     | Some e => Raise e
     end).
Proof.
  unfold rust_run. destruct (spawn w _ (fs s)) as [fs' [e|]]; reflexivity.
Qed.

Lemma reindex_ef_skip w graph c s f :
  fs s !! (graph ++ lit ".ef") = Some f ->
  reindex_ef w false graph c s = (emit (EExists (graph ++ lit ".ef")) s, Ok tt).
Proof.
  intros H. unfold reindex_ef, or_not_exists, bind, os_path_exists, ret.
  rewrite H. reflexivity.
Qed.

Lemma reindex_ef_forced w graph c s :
  reindex_ef w true graph c s =
    rust_run w (lit "swh-graph-index") [lit "ef"; graph] c
      (emit (ELog (lit "Recreating Elias-Fano indexes on adjacency lists")) s).
Proof. reflexivity. Qed.

Lemma reindex_ef_missing w graph c s :
  fs s !! (graph ++ lit ".ef") = None ->
  reindex_ef w false graph c s =
    rust_run w (lit "swh-graph-index") [lit "ef"; graph] c
      (emit (ELog (lit "Recreating Elias-Fano indexes on adjacency lists"))
         (emit (EExists (graph ++ lit ".ef")) s)).
Proof.
  intros H. unfold reindex_ef, or_not_exists, bind, os_path_exists, ret.
  rewrite H. reflexivity.
Qed.

Lemma reindex_ef_footprint w ef graph c s s' r :
  reindex_ef w ef graph c s = (s', r) ->
  exists l,
    trace s' = trace s ++ l
    /\ Forall (belongs graph (heap s !!! c) StepA) l
    /\ heap s' = heap s /\ ctx_obj s' = ctx_obj s.
Proof.
  destruct ef; [| destruct (fs s !! (graph ++ lit ".ef")) as [f|] eqn:Hf].
  - rewrite reindex_ef_forced, rust_run_spec. intros [= <- _]. simpl.
    eexists. rewrite <- app_assoc. split; [reflexivity|].
    split; [|done]. repeat constructor.
  - rewrite (reindex_ef_skip _ _ _ _ _ Hf). intros [= <- _]. simpl.
    eexists. split; [reflexivity|]. split; [|done]. repeat constructor.
  - rewrite (reindex_ef_missing _ _ _ _ Hf), rust_run_spec.
    intros [= <- _]. simpl.
    eexists. rewrite <- !app_assoc. split; [reflexivity|].
    split; [|done]. repeat constructor.
Qed.

(** Steps A and B change a file only through the index generator. *)
Lemma reindex_ef_frame w ef graph c s s' r p :
  (forall cmd f0, bin cmd = lit "swh-graph-index" ->
                  (spawn w cmd f0).1 !! p = f0 !! p) ->
  reindex_ef w ef graph c s = (s', r) ->
  fs s' !! p = fs s !! p.
Proof.
  intros Hw.
  destruct ef; [| destruct (fs s !! (graph ++ lit ".ef")) as [f|] eqn:Hf].
  - rewrite reindex_ef_forced, rust_run_spec. intros [= <- _]. simpl.
    by apply Hw.
  - rewrite (reindex_ef_skip _ _ _ _ _ Hf). by intros [= <- _].
  - rewrite (reindex_ef_missing _ _ _ _ Hf), rust_run_spec.
    intros [= <- _]. simpl. by apply Hw.
Qed.

Lemma reindex_ef_forced_inv w graph c s s' r :
  reindex_ef w true graph c s = (s', r) ->
  heap s' = heap s
  /\ trace s' =
       trace s ++
       [ELog (lit "Recreating Elias-Fano indexes on adjacency lists");
        ERun (Rust (lit "swh-graph-index") [lit "ef"; graph] (heap s !!! c))].
Proof.
  rewrite reindex_ef_forced, rust_run_spec. intros [= <- _]. simpl.
  by rewrite <- app_assoc.
Qed.

Lemma reindex_labels_ef_skip w graph c s f :
  fs s !! (graph ++ lit "-labelled.ef") = Some f ->
  reindex_labels_ef w false graph c s =
    (emit (EExists (graph ++ lit "-labelled.ef")) s, Ok tt).
Proof.
  intros H. unfold reindex_labels_ef, or_not_exists, bind, os_path_exists, ret.
  rewrite H. reflexivity.
Qed.

(** Step B once its test has passed: the sidecar is opened before
    anything else. *)
Lemma reindex_labels_ef_rebuild w ef graph c s :
  ef = true \/ fs s !! (graph ++ lit "-labelled.ef") = None ->
  reindex_labels_ef w ef graph c s =
    let s1 :=
      emits (gate_events ef (graph ++ lit "-labelled.ef")
               ++ [EOpenRead (graph ++ lit ".nodes.count.txt")]) s in
    match fs s !! (graph ++ lit ".nodes.count.txt") with
    | Some (Text t) =>
        rust_run w (lit "swh-graph-index")
          [lit "labels-ef"; graph ++ lit "-labelled"; strip t] c
          (emit (ELog (lit "Recreating Elias-Fano indexes on arc labels")) s1)
    | Some NoPermission =>
        (s1, Raise (PermissionError (graph ++ lit ".nodes.count.txt")))
    | Some Undecodable =>
        (s1, Raise (UnicodeDecodeError (graph ++ lit ".nodes.count.txt")))
    | None => (s1, Raise (FileNotFoundError (graph ++ lit ".nodes.count.txt")))
    end.
Proof.
  intros H.
  assert (Hgate :
    or_not_exists ef (graph ++ lit "-labelled.ef") s
    = (emits (gate_events ef (graph ++ lit "-labelled.ef")) s, Ok true)).
  { unfold or_not_exists, emits, gate_events.
    destruct ef.
    - unfold ret. rewrite app_nil_r. by destruct s.
    - destruct H as [H|H]; [discriminate|].
      unfold bind, os_path_exists, ret. rewrite H. reflexivity. }
  unfold reindex_labels_ef, bind. rewrite Hgate.
  unfold open_read, emit, emits, logging_info. simpl.
  rewrite <- app_assoc.
  destruct (fs s !! (graph ++ lit ".nodes.count.txt")) as [[t| |]|];
    reflexivity.
Qed.

Lemma reindex_labels_ef_footprint w ef graph c s s' r :
  reindex_labels_ef w ef graph c s = (s', r) ->
  exists l,
    trace s' = trace s ++ l
    /\ Forall (belongs graph (heap s !!! c) StepB) l
    /\ heap s' = heap s /\ ctx_obj s' = ctx_obj s.
Proof.
  destruct (decide (ef = true \/ fs s !! (graph ++ lit "-labelled.ef") = None))
    as [Hgo|Hskip].
  - rewrite (reindex_labels_ef_rebuild _ _ _ _ _ Hgo). cbv zeta.
    assert (Hg : Forall (belongs graph (heap s !!! c) StepB)
                   (gate_events ef (graph ++ lit "-labelled.ef"))).
    { unfold gate_events. destruct ef; repeat constructor. }
    destruct (fs s !! (graph ++ lit ".nodes.count.txt")) as [[t| |]|];
      [rewrite rust_run_spec|..]; intros [= <- _]; simpl;
      eexists; rewrite <- ?app_assoc; (split; [reflexivity|]);
      (split; [|done]); apply Forall_app; (split; [exact Hg|]);
      repeat constructor.
  - destruct ef; [tauto|].
    destruct (fs s !! (graph ++ lit "-labelled.ef")) as [f|] eqn:Hf; [|tauto].
    rewrite (reindex_labels_ef_skip _ _ _ _ _ Hf). intros [= <- _]. simpl.
    eexists. split; [reflexivity|]. split; [|done]. repeat constructor.
Qed.

Lemma reindex_labels_ef_frame w ef graph c s s' r p :
  (forall cmd f0, bin cmd = lit "swh-graph-index" ->
                  (spawn w cmd f0).1 !! p = f0 !! p) ->
  reindex_labels_ef w ef graph c s = (s', r) ->
  fs s' !! p = fs s !! p.
Proof.
  intros Hw.
  destruct (decide (ef = true \/ fs s !! (graph ++ lit "-labelled.ef") = None))
    as [Hgo|Hskip].
  - rewrite (reindex_labels_ef_rebuild _ _ _ _ _ Hgo). cbv zeta.
    destruct (fs s !! (graph ++ lit ".nodes.count.txt")) as [[t| |]|];
      [rewrite rust_run_spec|..]; intros [= <- _]; simpl; [by apply Hw|done..].
  - destruct ef; [tauto|].
    destruct (fs s !! (graph ++ lit "-labelled.ef")) as [f|] eqn:Hf; [|tauto].
    rewrite (reindex_labels_ef_skip _ _ _ _ _ Hf). by intros [= <- _].
Qed.

Lemma reindex_labels_ef_forced_inv w graph c s s' r :
  reindex_labels_ef w true graph c s = (s', r) ->
  heap s' = heap s
  /\ ((trace s' = trace s ++ [EOpenRead (graph ++ lit ".nodes.count.txt")]
       /\ r <> Ok tt)
      \/ exists node_count,
           trace s' =
             trace s ++
             [EOpenRead (graph ++ lit ".nodes.count.txt");
              ELog (lit "Recreating Elias-Fano indexes on arc labels");
              ERun (Rust (lit "swh-graph-index")
                      [lit "labels-ef"; graph ++ lit "-labelled"; node_count]
                      (heap s !!! c))]).
Proof.
  rewrite (reindex_labels_ef_rebuild w true graph c s (or_introl eq_refl)).
  cbv zeta.
  destruct (fs s !! (graph ++ lit ".nodes.count.txt")) as [[t| |]|];
    [rewrite rust_run_spec|..]; intros [= <- <-]; simpl;
    (split; [done|]); [right|left..]; rewrite <- ?app_assoc; eauto.
Qed.

(** The commands step B starts. *)
Lemma reindex_labels_ef_runs w ef graph c s s' r :
  reindex_labels_ef w ef graph c s = (s', r) ->
  (forall cmd, In (ERun cmd) (new_events s s') ->
     exists t,
       fs s !! (graph ++ lit ".nodes.count.txt") = Some (Text t)
       /\ cmd = Rust (lit "swh-graph-index")
                  [lit "labels-ef"; graph ++ lit "-labelled"; strip t]
                  (heap s !!! c))
  /\ (forall t,
        ef = true \/ fs s !! (graph ++ lit "-labelled.ef") = None ->
        fs s !! (graph ++ lit ".nodes.count.txt") = Some (Text t) ->
        In (ERun (Rust (lit "swh-graph-index")
                    [lit "labels-ef"; graph ++ lit "-labelled"; strip t]
                    (heap s !!! c)))
           (new_events s s')).
Proof.
  destruct (decide (ef = true \/ fs s !! (graph ++ lit "-labelled.ef") = None))
    as [Hgo|Hskip].
  - rewrite (reindex_labels_ef_rebuild _ _ _ _ _ Hgo). cbv zeta.
    destruct (fs s !! (graph ++ lit ".nodes.count.txt")) as [[t| |]|] eqn:Hsc;
      [rewrite rust_run_spec|..]; intros [= <- _];
      (erewrite new_events_app
         by (simpl; rewrite <- ?app_assoc; reflexivity));
      (split; [|intros t' _ [=]]).
    2:{ subst t'. apply in_or_app. right. simpl. auto. }
    all: intros cmd Hin; apply in_app_or in Hin as [Hin|Hin]; in_list Hin.
    exists t. split; [done|]. by injection Hin as <-.
  - intros Hrun. split; [|tauto].
    destruct ef; [tauto|].
    destruct (fs s !! (graph ++ lit "-labelled.ef")) as [f|] eqn:Hf; [|tauto].
    rewrite (reindex_labels_ef_skip _ _ _ _ _ Hf) in Hrun.
    injection Hrun as <- _.
    erewrite new_events_app by reflexivity.
    intros cmd Hin. in_list Hin.
Qed.

Lemma reindex_node2type_skip w graph c s f :
  fs s !! (graph ++ lit ".node2type.bin") = Some f ->
  reindex_node2type w false graph c s =
    (emit (EExists (graph ++ lit ".node2type.bin")) s, Ok tt).
Proof.
  intros H.
  unfold reindex_node2type, or_not_exists, bind, os_path_exists, ret.
  rewrite H. reflexivity.
Qed.

(** Step C with a stale file on disk: it is unlinked, then the generator
    starts on a filesystem without it. *)
Lemma reindex_node2type_stale w graph c s f :
  fs s !! (graph ++ lit ".node2type.bin") = Some f ->
  reindex_node2type w true graph c s =
    let l := [ELog (lit "Creating node2type.bin");
              EExists (graph ++ lit ".node2type.bin");
              EUnlink (graph ++ lit ".node2type.bin")] in
    match unlink_refused w (graph ++ lit ".node2type.bin") (fs s) with
    | Some e => (emits l s, Raise e)
    | None =>
        rust_run w (lit "swh-graph-node2type") [graph] c
          (State (delete (graph ++ lit ".node2type.bin") (fs s))
             (heap s) (ctx_obj s) (trace s ++ l))
    end.
Proof.
  intros H.
  unfold reindex_node2type, or_not_exists, bind, os_path_exists, ret,
    logging_info, os_unlink, emits, emit.
  simpl. rewrite H. simpl. rewrite H.
  destruct (unlink_refused w _ (fs s)); simpl; rewrite <- !app_assoc;
    reflexivity.
Qed.

Lemma reindex_node2type_missing w force graph c s :
  fs s !! (graph ++ lit ".node2type.bin") = None ->
  reindex_node2type w force graph c s =
    rust_run w (lit "swh-graph-node2type") [graph] c
      (emits (gate_events force (graph ++ lit ".node2type.bin")
                ++ [ELog (lit "Creating node2type.bin");
                    EExists (graph ++ lit ".node2type.bin")]) s).
Proof.
  intros H.
  unfold reindex_node2type, or_not_exists, bind, os_path_exists, ret,
    logging_info, emits, emit, gate_events.
  destruct force; simpl; rewrite H; simpl; rewrite ?H; simpl;
    rewrite <- ?app_assoc; reflexivity.
Qed.

Lemma reindex_node2type_footprint w force graph c s s' r :
  reindex_node2type w force graph c s = (s', r) ->
  exists l,
    trace s' = trace s ++ l
    /\ Forall (belongs graph (heap s !!! c) StepC) l
    /\ heap s' = heap s /\ ctx_obj s' = ctx_obj s.
Proof.
  destruct (fs s !! (graph ++ lit ".node2type.bin")) as [f|] eqn:Hf.
  - destruct force.
    + rewrite (reindex_node2type_stale _ _ _ _ _ Hf). cbv zeta.
      destruct (unlink_refused w _ (fs s)); [|rewrite rust_run_spec];
        intros [= <- _]; simpl; eexists; rewrite <- ?app_assoc;
        (split; [reflexivity|]); (split; [|done]); repeat constructor.
    + rewrite (reindex_node2type_skip _ _ _ _ _ Hf). intros [= <- _]. simpl.
      eexists. split; [reflexivity|]. split; [|done]. repeat constructor.
  - rewrite (reindex_node2type_missing _ _ _ _ _ Hf), rust_run_spec.
    intros [= <- _]. simpl. eexists. rewrite <- ?app_assoc.
    split; [reflexivity|]. split; [|done].
    unfold gate_events. destruct force; repeat constructor.
Qed.

Lemma reindex_node2type_forced_inv w graph c s s' r :
  reindex_node2type w true graph c s = (s', r) ->
  let p := graph ++ lit ".node2type.bin" in
  (trace s' = trace s ++ [ELog (lit "Creating node2type.bin");
                          EExists p; EUnlink p]
   /\ r <> Ok tt)
  \/ exists mid,
       (mid = [] \/ mid = [EUnlink p])
       /\ trace s' =
            trace s ++
            [ELog (lit "Creating node2type.bin"); EExists p] ++ mid ++
            [ERun (Rust (lit "swh-graph-node2type") [graph] (heap s !!! c))].
Proof.
  destruct (fs s !! (graph ++ lit ".node2type.bin")) as [f|] eqn:Hf.
  - rewrite (reindex_node2type_stale _ _ _ _ _ Hf). cbv zeta.
    destruct (unlink_refused w _ (fs s)); [|rewrite rust_run_spec];
      intros [= <- <-]; simpl; [left; done|].
    right. eexists. split; [right; reflexivity|].
    by rewrite <- !app_assoc.
  - rewrite (reindex_node2type_missing _ _ _ _ _ Hf), rust_run_spec.
    intros [= <- <-]. simpl. right. exists []. split; [by left|].
    by rewrite <- !app_assoc.
Qed.

(** ** The whole command *)

Lemma with_profile_trace c s : trace (with_profile c s) = trace s.
Proof. unfold with_profile. by destruct (_ !! _). Qed.

Lemma with_profile_fs c s : fs (with_profile c s) = fs s.
Proof. unfold with_profile. by destruct (_ !! _). Qed.

Lemma with_profile_ctx_obj c s : ctx_obj (with_profile c s) = ctx_obj s.
Proof. unfold with_profile. by destruct (_ !! _). Qed.

Lemma with_profile_set c s :
  is_Some ((heap (with_profile c s) !!! c) !! lit "profile").
Proof.
  unfold with_profile.
  destruct ((heap s !!! c) !! lit "profile") as [v|] eqn:H; simpl.
  - rewrite H. eauto.
  - rewrite lookup_total_insert_eq, lookup_insert_eq. eauto.
Qed.

Lemma with_profile_default c s :
  (heap s !!! c) !! lit "profile" = None ->
  (heap (with_profile c s) !!! c) !! lit "profile"
  = Some (PStr (lit "release")).
Proof.
  intros H. unfold with_profile. rewrite H. simpl.
  by rewrite lookup_total_insert_eq, lookup_insert_eq.
Qed.

Lemma with_profile_keep c s v :
  (heap s !!! c) !! lit "profile" = Some v -> with_profile c s = s.
Proof. intros H. unfold with_profile. by rewrite H. Qed.

(** With a configuration in the context, [reindex] is its three steps run
    from [with_profile]. *)
Lemma reindex_steps w force ef graph s o c :
  ctx_obj s = Some o -> o !! lit "config" = Some c ->
  reindex w force ef graph s =
    (reindex_ef w (ef || force) graph c;;
     reindex_labels_ef w (ef || force) graph c;;
     reindex_node2type w force graph c) (with_profile c s).
Proof.
  intros Ho Hc.
  unfold reindex, ctx_obj_get, dict_contains, dict_set.
  unfold bind at 1. rewrite Ho, Hc.
  unfold bind at 1. unfold bind at 1. unfold with_profile.
  destruct ((heap s !!! c) !! lit "profile"); reflexivity.
Qed.

Lemma reindex_no_config w force ef graph s :
  (forall o, ctx_obj s = Some o -> o !! lit "config" = None) ->
  exists e, reindex w force ef graph s = (s, Raise e).
Proof.
  intros H. unfold reindex, ctx_obj_get. unfold bind at 1.
  destruct (ctx_obj s) as [o|]; [|eauto].
  rewrite (H o eq_refl). eauto.
Qed.

(** The outcome of a run is that of the first step that raises, or that
    of step C. *)
Lemma reindex_run_inv w force ef graph s o c s' r :
  ctx_obj s = Some o -> o !! lit "config" = Some c ->
  reindex w force ef graph s = (s', r) ->
  exists s1 rA,
    reindex_ef w (ef || force) graph c (with_profile c s) = (s1, rA)
    /\ match rA with
       | Raise e => s' = s1 /\ r = Raise e
       | Ok _ =>
           exists s2 rB,
             reindex_labels_ef w (ef || force) graph c s1 = (s2, rB)
             /\ match rB with
                | Raise e => s' = s2 /\ r = Raise e
                | Ok _ => reindex_node2type w force graph c s2 = (s', r)
                end
       end.
Proof.
  intros Ho Hc. rewrite (reindex_steps _ _ _ _ _ _ _ Ho Hc).
  unfold bind.
  destruct (reindex_ef _ _ _ _ _) as [s1 [[]|e]]; intros Hrun;
    exists s1; eexists; (split; [reflexivity|]).
  - destruct (reindex_labels_ef _ _ _ _ _) as [s2 [[]|e]];
      exists s2; eexists; (split; [reflexivity|]).
    + exact Hrun.
    + by injection Hrun as <- <-.
  - by injection Hrun as <- <-.
Qed.

(** Every run of [reindex] appends the events of step A, then those of
    step B, then those of step C, all for one configuration in which the
    profile is set. *)
Lemma reindex_footprint w force ef graph s s' r :
  reindex w force ef graph s = (s', r) ->
  exists d lA lB lC,
    trace s' = trace s ++ lA ++ lB ++ lC
    /\ is_Some (d !! lit "profile")
    /\ Forall (belongs graph d StepA) lA
    /\ Forall (belongs graph d StepB) lB
    /\ Forall (belongs graph d StepC) lC
    /\ (forall o c, ctx_obj s = Some o -> o !! lit "config" = Some c ->
          d = heap (with_profile c s) !!! c).
Proof.
  intros Hrun.
  destruct (ctx_obj s) as [o|] eqn:Ho;
    [destruct (o !! lit "config") as [c|] eqn:Hc|].
  - rewrite (reindex_steps _ _ _ _ _ _ _ Ho Hc) in Hrun.
    pose proof (with_profile_set c s) as Hp.
    pose proof (with_profile_trace c s) as Ht.
    set (s0 := with_profile c s) in *.
    exists (heap s0 !!! c).
    assert (Hd : forall o' c', Some o = Some o' -> o' !! lit "config" = Some c' ->
                   heap s0 !!! c = heap (with_profile c' s) !!! c').
    { intros o' c' [= <-] Hc'. rewrite Hc in Hc'. by injection Hc' as <-. }
    unfold bind in Hrun.
    destruct (reindex_ef w (ef || force) graph c s0) as [s1 rA] eqn:HA.
    destruct (reindex_ef_footprint _ _ _ _ _ _ _ HA)
      as (lA & HtA & HfA & HhA & _).
    destruct rA as [[]|e].
    2:{ injection Hrun as <- _. exists lA, [], [].
        rewrite !app_nil_r, HtA, Ht. auto 7. }
    destruct (reindex_labels_ef w (ef || force) graph c s1) as [s2 rB] eqn:HB.
    destruct (reindex_labels_ef_footprint _ _ _ _ _ _ _ HB)
      as (lB & HtB & HfB & HhB & _).
    rewrite HhA in HfB.
    destruct rB as [[]|e].
    2:{ injection Hrun as <- _. exists lA, lB, [].
        rewrite !app_nil_r, HtB, HtA, Ht, <- app_assoc. auto 7. }
    destruct (reindex_node2type_footprint _ _ _ _ _ _ _ Hrun)
      as (lC & HtC & HfC & _).
    rewrite HhB, HhA in HfC.
    exists lA, lB, lC.
    rewrite HtC, HtB, HtA, Ht, <- !app_assoc. auto 7.
  - destruct (reindex_no_config w force ef graph s) as [e He].
    { intros o' Ho'. congruence. }
    rewrite He in Hrun. injection Hrun as <- _.
    exists {[ lit "profile" := PStr (lit "release") ]}, [], [], [].
    rewrite !app_nil_r. split; [done|].
    split; [rewrite lookup_singleton_eq; eauto|].
    repeat (split; [constructor|]). intros o' c' Ho'. congruence.
  - destruct (reindex_no_config w force ef graph s) as [e He].
    { intros o' Ho'. congruence. }
    rewrite He in Hrun. injection Hrun as <- _.
    exists {[ lit "profile" := PStr (lit "release") ]}, [], [], [].
    rewrite !app_nil_r. split; [done|].
    split; [rewrite lookup_singleton_eq; eauto|].
    repeat (split; [constructor|]). intros o' c' Ho'. congruence.
Qed.

(** The anatomy of a run that found its configuration: the events of
    step A, then of step B, then of step C, and the first error ends the
    run. *)
Lemma reindex_anatomy w force ef graph s o c s' r :
  ctx_obj s = Some o -> o !! lit "config" = Some c ->
  reindex w force ef graph s = (s', r) ->
  let d := heap (with_profile c s) !!! c in
  exists lA lB lC sA rA,
    trace s' = trace s ++ lA ++ lB ++ lC
    /\ Forall (belongs graph d StepA) lA
    /\ Forall (belongs graph d StepB) lB
    /\ Forall (belongs graph d StepC) lC
    /\ reindex_ef w (ef || force) graph c (with_profile c s) = (sA, rA)
    /\ new_events s sA = lA
    /\ heap sA = heap (with_profile c s)
    /\ match rA with
       | Raise e => s' = sA /\ r = Raise e /\ lB = [] /\ lC = []
       | Ok _ =>
           exists sB rB,
             reindex_labels_ef w (ef || force) graph c sA = (sB, rB)
             /\ new_events sA sB = lB
             /\ match rB with
                | Raise e => s' = sB /\ r = Raise e /\ lC = []
                | Ok _ =>
                    reindex_node2type w force graph c sB = (s', r)
                    /\ new_events sB s' = lC
                end
       end.
Proof.
  intros Ho Hc Hrun d.
  destruct (reindex_run_inv _ _ _ _ _ _ _ _ _ Ho Hc Hrun)
    as (sA & rA & HA & Hrest).
  pose proof (with_profile_trace c s) as Ht.
  set (s0 := with_profile c s) in *.
  destruct (reindex_ef_footprint _ _ _ _ _ _ _ HA)
    as (lA & HtA & HlA & HhA & _).
  assert (HnA : new_events s sA = lA).
  { apply new_events_app. by rewrite HtA, Ht. }
  destruct rA as [[]|e].
  2:{ destruct Hrest as [-> ->]. exists lA, [], [], sA, (Raise e).
      rewrite !app_nil_r. split; [by rewrite HtA, Ht|]. split; [done|].
      do 2 (split; [by apply Forall_nil|]). done. }
  destruct Hrest as (sB & rB & HB & Hrest).
  destruct (reindex_labels_ef_footprint _ _ _ _ _ _ _ HB)
    as (lB & HtB & HlB & HhB & _).
  rewrite HhA in HlB.
  assert (HnB : new_events sA sB = lB) by by apply new_events_app.
  destruct rB as [[]|e].
  2:{ destruct Hrest as [-> ->]. exists lA, lB, [], sA, (Ok tt).
      rewrite !app_nil_r. split.
      { by rewrite HtB, HtA, Ht, <- app_assoc. }
      do 2 (split; [done|]). split; [by apply Forall_nil|].
      do 3 (split; [done|]). exists sB, (Raise e). done. }
  destruct (reindex_node2type_footprint _ _ _ _ _ _ _ Hrest)
    as (lC & HtC & HlC & _).
  rewrite HhB, HhA in HlC.
  exists lA, lB, lC, sA, (Ok tt). split.
  { by rewrite HtC, HtB, HtA, Ht, <- !app_assoc. }
  do 6 (split; [done|]).
  exists sB, (Ok tt). do 2 (split; [done|]).
  split; [done|]. by apply new_events_app.
Qed.

(** What [graph_cli_group] leaves behind. *)
Lemma graph_cli_group_inv w config_file profile s sg r :
  graph_cli_group w config_file profile s = (sg, r) ->
  trace sg = trace s ++ [EConfigRead config_file]
  /\ fs sg = fs s
  /\ (r = Ok tt ->
      exists d0 o l,
        config_read w config_file DEFAULT_CONFIG (fs s) = inr d0
        /\ ctx_obj sg = Some o /\ o !! lit "config" = Some l
        /\ heap sg !!! l =
             match profile with
             | Some v => <[lit "profile" := PStr v]> d0
             | None => d0
             end).
Proof.
  unfold graph_cli_group, bind, ensure_object, config_read_call,
    dict_contains, ctx_obj_set, dict_set, raise, ret.
  destruct s as [f h [o|] tr]; simpl;
    (destruct (config_read w config_file DEFAULT_CONFIG f) as [e|d0];
     simpl; [by intros [= <- <-]|]);
    rewrite lookup_total_insert_eq;
    (destruct (d0 !! lit "graph"); simpl; [|by intros [= <- <-]]);
    destruct profile as [v|]; intros [= <- <-]; simpl;
    do 2 (split; [done|]); intros _;
    eexists d0, _, _; (split; [done|]); (split; [done|]);
    rewrite lookup_insert_eq; (split; [done|]);
    by rewrite ?lookup_total_insert_eq.
Qed.


(** ** The events of a run, step by step *)

Set Warnings "-clear-no-such-hyp".

Lemma reindex_ef_events w ef graph c s s' r :
  reindex_ef w ef graph c s = (s', r) ->
  trace s' = trace s ++ ef_events ef graph (heap s !!! c) (fs s).
Proof.
  unfold ef_events, present, gate_events.
  destruct ef; [| destruct (fs s !! (graph ++ lit ".ef")) as [f|] eqn:Hf].
  - rewrite reindex_ef_forced, rust_run_spec. intros [= <- _]. simpl.
    by rewrite <- app_assoc.
  - rewrite (reindex_ef_skip _ _ _ _ _ Hf). by intros [= <- _].
  - rewrite (reindex_ef_missing _ _ _ _ Hf), rust_run_spec.
    intros [= <- _]. simpl. by rewrite <- !app_assoc.
Qed.

Lemma reindex_labels_ef_events w ef graph c s s' r :
  reindex_labels_ef w ef graph c s = (s', r) ->
  trace s' = trace s ++ labels_ef_events ef graph (heap s !!! c) (fs s).
Proof.
  unfold labels_ef_events, present.
  destruct (decide (ef = true \/ fs s !! (graph ++ lit "-labelled.ef") = None))
    as [Hgo|Hskip].
  - rewrite (reindex_labels_ef_rebuild _ _ _ _ _ Hgo). cbv zeta.
    assert (Hb : ef || negb match fs s !! (graph ++ lit "-labelled.ef") with
                           | Some _ => true
                           | None => false
                           end = true).
    { destruct Hgo as [-> | ->]; [done|by destruct ef]. }
    rewrite Hb.
    destruct (fs s !! (graph ++ lit ".nodes.count.txt")) as [[t| |]|];
      [rewrite rust_run_spec|..]; intros [= <- _]; simpl;
      by rewrite <- ?app_assoc.
  - destruct ef; [tauto|].
    destruct (fs s !! (graph ++ lit "-labelled.ef")) as [f|] eqn:Hf; [|tauto].
    rewrite (reindex_labels_ef_skip _ _ _ _ _ Hf). by intros [= <- _].
Qed.

Lemma reindex_node2type_events w force graph c s s' r :
  reindex_node2type w force graph c s = (s', r) ->
  trace s' = trace s ++ node2type_events w force graph (heap s !!! c) (fs s).
Proof.
  unfold node2type_events, present. cbv zeta.
  destruct (fs s !! (graph ++ lit ".node2type.bin")) as [f|] eqn:Hf.
  - destruct force.
    + rewrite (reindex_node2type_stale _ _ _ _ _ Hf). cbv zeta.
      destruct (unlink_refused w _ (fs s)); [|rewrite rust_run_spec];
        intros [= <- _]; simpl; by rewrite <- ?app_assoc.
    + rewrite (reindex_node2type_skip _ _ _ _ _ Hf). by intros [= <- _].
  - rewrite (reindex_node2type_missing _ _ _ _ _ Hf), rust_run_spec.
    intros [= <- _]. simpl. rewrite orb_true_r.
    by rewrite <- ?app_assoc.
Qed.

(** The commands among the events of each step. *)
Lemma In_ef_events_run cmd ef graph d f :
  In (ERun cmd) (ef_events ef graph d f) <->
  cmd = Rust (lit "swh-graph-index") [lit "ef"; graph] d
  /\ (ef = true \/ f !! (graph ++ lit ".ef") = None).
Proof.
  unfold ef_events, present, gate_events.
  destruct ef; [|destruct (f !! (graph ++ lit ".ef"))]; simpl; split;
    try (intros H; in_list H; injection H as <-; auto);
    intros [-> [?|?]]; auto; discriminate.
Qed.

Lemma In_labels_ef_events_run cmd ef graph d f :
  In (ERun cmd) (labels_ef_events ef graph d f) <->
  (ef = true \/ f !! (graph ++ lit "-labelled.ef") = None)
  /\ exists t,
       f !! (graph ++ lit ".nodes.count.txt") = Some (Text t)
       /\ cmd = Rust (lit "swh-graph-index")
                  [lit "labels-ef"; graph ++ lit "-labelled"; strip t] d.
Proof.
  unfold labels_ef_events, present, gate_events.
  destruct ef; [|destruct (f !! (graph ++ lit "-labelled.ef"))];
    (destruct (f !! (graph ++ lit ".nodes.count.txt")) as [[t| |]|]);
    simpl; split;
    try (intros H; in_list H; injection H as <-; eauto);
    intros [[?|?] (t' & Ht & ->)]; try discriminate;
    injection Ht as <-; auto.
Qed.

Lemma In_node2type_events_run w cmd force graph d f :
  In (ERun cmd) (node2type_events w force graph d f) <->
  cmd = Rust (lit "swh-graph-node2type") [graph] d
  /\ (force = true \/ f !! (graph ++ lit ".node2type.bin") = None)
  /\ (is_Some (f !! (graph ++ lit ".node2type.bin")) ->
      unlink_refused w (graph ++ lit ".node2type.bin") f = None).
Proof.
  unfold node2type_events, present, gate_events. cbv zeta.
  destruct force; (destruct (f !! (graph ++ lit ".node2type.bin")) as [x|]);
    [destruct (unlink_refused w _ f) as [e|]| |
     destruct (unlink_refused w _ f) as [e|]|]; simpl; split;
    try (intros H; in_list H; injection H as <-;
         repeat split; auto; by intros [? [=]]);
    intros (-> & [?|?] & Hu); try discriminate; auto;
    by specialize (Hu (ex_intro _ x eq_refl)).
Qed.

Lemma In_ef_events_log m ef graph d f :
  In (ELog m) (ef_events ef graph d f) <->
  m = lit "Recreating Elias-Fano indexes on adjacency lists"
  /\ (ef = true \/ f !! (graph ++ lit ".ef") = None).
Proof.
  unfold ef_events, present, gate_events.
  destruct ef; [|destruct (f !! (graph ++ lit ".ef"))]; simpl; split;
    try (intros H; in_list H; injection H as <-; auto);
    intros [-> [?|?]]; auto; discriminate.
Qed.

Lemma In_labels_ef_events_log m ef graph d f :
  In (ELog m) (labels_ef_events ef graph d f) <->
  m = lit "Recreating Elias-Fano indexes on arc labels"
  /\ (ef = true \/ f !! (graph ++ lit "-labelled.ef") = None)
  /\ exists t, f !! (graph ++ lit ".nodes.count.txt") = Some (Text t).
Proof.
  unfold labels_ef_events, present, gate_events.
  destruct ef; [|destruct (f !! (graph ++ lit "-labelled.ef"))];
    (destruct (f !! (graph ++ lit ".nodes.count.txt")) as [[t| |]|]);
    simpl; split;
    try (intros H; in_list H; injection H as <-; eauto);
    intros (-> & [?|?] & (t' & Ht)); try discriminate; auto.
Qed.

Lemma In_node2type_events_log w m force graph d f :
  In (ELog m) (node2type_events w force graph d f) <->
  m = lit "Creating node2type.bin"
  /\ (force = true \/ f !! (graph ++ lit ".node2type.bin") = None).
Proof.
  unfold node2type_events, present, gate_events. cbv zeta.
  destruct force; (destruct (f !! (graph ++ lit ".node2type.bin")) as [x|]);
    [destruct (unlink_refused w _ f) as [e|]| |
     destruct (unlink_refused w _ f) as [e|]|]; simpl; split;
    try (intros H; in_list H; injection H as <-; auto);
    intros (-> & [?|?]); try discriminate; auto.
Qed.

Lemma In_node2type_events_unlink w q force graph d f :
  In (EUnlink q) (node2type_events w force graph d f) <->
  q = graph ++ lit ".node2type.bin"
  /\ force = true /\ is_Some (f !! (graph ++ lit ".node2type.bin")).
Proof.
  unfold node2type_events, present, gate_events. cbv zeta.
  destruct force; (destruct (f !! (graph ++ lit ".node2type.bin")) as [x|]);
    [destruct (unlink_refused w _ f) as [e|]| |
     destruct (unlink_refused w _ f) as [e|]|]; simpl; split;
    try (intros H; in_list H; injection H as <-; eauto);
    intros (-> & ? & [y Hy]); try discriminate; auto.
Qed.

Lemma In_labels_ef_events_open q ef graph d f :
  In (EOpenRead q) (labels_ef_events ef graph d f) <->
  q = graph ++ lit ".nodes.count.txt"
  /\ (ef = true \/ f !! (graph ++ lit "-labelled.ef") = None).
Proof.
  unfold labels_ef_events, present, gate_events.
  destruct ef; [|destruct (f !! (graph ++ lit "-labelled.ef"))];
    (destruct (f !! (graph ++ lit ".nodes.count.txt")) as [[t| |]|]);
    simpl; split;
    try (intros H; in_list H; injection H as <-; eauto);
    intros (-> & [?|?]); try discriminate; auto.
Qed.

Lemma runs_app l1 l2 : runs (l1 ++ l2) = runs l1 ++ runs l2.
Proof. unfold runs. apply omap_app. Qed.

Lemma reindex_events w force ef graph s o c s' r :
  ctx_obj s = Some o -> o !! lit "config" = Some c ->
  reindex w force ef graph s = (s', r) ->
  let d := heap (with_profile c s) !!! c in
  exists sA rA,
    reindex_ef w (ef || force) graph c (with_profile c s) = (sA, rA)
    /\ match rA with
       | Raise e =>
           s' = sA /\ r = Raise e
           /\ new_events s s' = ef_events (ef || force) graph d (fs s)
       | Ok _ =>
           exists sB rB,
             reindex_labels_ef w (ef || force) graph c sA = (sB, rB)
             /\ match rB with
                | Raise e =>
                    s' = sB /\ r = Raise e
                    /\ new_events s s' =
                         ef_events (ef || force) graph d (fs s)
                         ++ labels_ef_events (ef || force) graph d (fs sA)
                | Ok _ =>
                    reindex_node2type w force graph c sB = (s', r)
                    /\ new_events s s' =
                         ef_events (ef || force) graph d (fs s)
                         ++ labels_ef_events (ef || force) graph d (fs sA)
                         ++ node2type_events w force graph d (fs sB)
                end
       end.
Proof.
  intros Ho Hc Hrun d.
  destruct (reindex_run_inv _ _ _ _ _ _ _ _ _ Ho Hc Hrun)
    as (sA & rA & HA & Hrest).
  exists sA, rA. split; [exact HA|].
  pose proof (reindex_ef_events _ _ _ _ _ _ _ HA) as HtA.
  destruct (reindex_ef_footprint _ _ _ _ _ _ _ HA) as (_ & _ & _ & HhA & _).
  rewrite with_profile_trace, with_profile_fs in HtA. fold d in HtA.
  destruct rA as [[]|e].
  2:{ destruct Hrest as [-> ->]. do 2 (split; [done|]).
      by apply new_events_app. }
  destruct Hrest as (sB & rB & HB & Hrest).
  exists sB, rB. split; [exact HB|].
  pose proof (reindex_labels_ef_events _ _ _ _ _ _ _ HB) as HtB.
  destruct (reindex_labels_ef_footprint _ _ _ _ _ _ _ HB)
    as (_ & _ & _ & HhB & _).
  rewrite HhA in HtB. fold d in HtB. rewrite HtA, <- app_assoc in HtB.
  destruct rB as [[]|e].
  2:{ destruct Hrest as [-> ->]. do 2 (split; [done|]).
      by apply new_events_app. }
  split; [exact Hrest|].
  pose proof (reindex_node2type_events _ _ _ _ _ _ _ Hrest) as HtC.
  rewrite HhB, HhA in HtC. fold d in HtC.
  rewrite HtB, <- !app_assoc in HtC. by apply new_events_app.
Qed.

Lemma runs_ef_events ef graph d f :
  runs (ef_events ef graph d f) = []
  \/ runs (ef_events ef graph d f)
     = [Rust (lit "swh-graph-index") [lit "ef"; graph] d].
Proof.
  unfold ef_events, present, gate_events.
  destruct ef; [|destruct (f !! (graph ++ lit ".ef"))]; simpl; auto.
Qed.

Lemma runs_labels_ef_events ef graph d f :
  runs (labels_ef_events ef graph d f) = []
  \/ exists node_count,
       runs (labels_ef_events ef graph d f)
       = [Rust (lit "swh-graph-index")
            [lit "labels-ef"; graph ++ lit "-labelled"; node_count] d].
Proof.
  unfold labels_ef_events, present, gate_events.
  destruct ef; [|destruct (f !! (graph ++ lit "-labelled.ef"))];
    (destruct (f !! (graph ++ lit ".nodes.count.txt")) as [[t| |]|]);
    simpl; eauto.
Qed.

Lemma runs_node2type_events w force graph d f :
  runs (node2type_events w force graph d f) = []
  \/ runs (node2type_events w force graph d f)
     = [Rust (lit "swh-graph-node2type") [graph] d].
Proof.
  unfold node2type_events, present, gate_events. cbv zeta.
  destruct force; (destruct (f !! (graph ++ lit ".node2type.bin")) as [x|]);
    try destruct (unlink_refused w _ f) as [e|]; simpl; auto.
Qed.

Lemma reindex_node2type_frame w force graph c s s' r q :
  q <> graph ++ lit ".node2type.bin" ->
  (forall cmd f0, (spawn w cmd f0).1 !! q = f0 !! q) ->
  reindex_node2type w force graph c s = (s', r) ->
  fs s' !! q = fs s !! q.
Proof.
  intros Hq Hw.
  destruct (fs s !! (graph ++ lit ".node2type.bin")) as [f|] eqn:Hf.
  - destruct force.
    + rewrite (reindex_node2type_stale _ _ _ _ _ Hf). cbv zeta.
      destruct (unlink_refused w _ (fs s)); [|rewrite rust_run_spec];
        intros [= <- _]; simpl; [done|].
      rewrite Hw. by apply lookup_delete_ne.
    + rewrite (reindex_node2type_skip _ _ _ _ _ Hf). by intros [= <- _].
  - rewrite (reindex_node2type_missing _ _ _ _ _ Hf), rust_run_spec.
    intros [= <- _]. simpl. by rewrite Hw.
Qed.

(** What a run does to the context and to the dictionaries. *)
Lemma reindex_heap_ctx w force ef graph s o c s' r :
  ctx_obj s = Some o -> o !! lit "config" = Some c ->
  reindex w force ef graph s = (s', r) ->
  ctx_obj s' = ctx_obj s /\ heap s' = heap (with_profile c s).
Proof.
  intros Ho Hc Hrun.
  rewrite <- (with_profile_ctx_obj c s).
  destruct (reindex_run_inv _ _ _ _ _ _ _ _ _ Ho Hc Hrun)
    as (sA & rA & HA & Hrest).
  destruct (reindex_ef_footprint _ _ _ _ _ _ _ HA) as (_ & _ & _ & HhA & HcA).
  destruct rA as [[]|e]; [|by destruct Hrest as [-> _]].
  destruct Hrest as (sB & rB & HB & Hrest).
  destruct (reindex_labels_ef_footprint _ _ _ _ _ _ _ HB)
    as (_ & _ & _ & HhB & HcB).
  destruct rB as [[]|e]; [|destruct Hrest as [-> _]; split; congruence].
  destruct (reindex_node2type_footprint _ _ _ _ _ _ _ Hrest)
    as (_ & _ & _ & HhC & HcC).
  split; congruence.
Qed.

(** With the three artifacts present, a plain run is three existence
    checks. *)
Lemma reindex_all_present w graph s o c fa fb fc :
  ctx_obj s = Some o -> o !! lit "config" = Some c ->
  fs s !! (graph ++ lit ".ef") = Some fa ->
  fs s !! (graph ++ lit "-labelled.ef") = Some fb ->
  fs s !! (graph ++ lit ".node2type.bin") = Some fc ->
  reindex w false false graph s =
    (emits [EExists (graph ++ lit ".ef");
            EExists (graph ++ lit "-labelled.ef");
            EExists (graph ++ lit ".node2type.bin")] (with_profile c s),
     Ok tt).
Proof.
  intros Ho Hc Ha Hb Hn.
  rewrite (reindex_steps _ _ _ _ _ _ _ Ho Hc). unfold bind. simpl.
  erewrite reindex_ef_skip by (rewrite with_profile_fs; exact Ha).
  erewrite reindex_labels_ef_skip by (simpl; rewrite with_profile_fs; exact Hb).
  erewrite reindex_node2type_skip by (simpl; rewrite with_profile_fs; exact Hn).
  unfold emits, emit. simpl. by rewrite <- !app_assoc.
Qed.

Lemma lstrip_blank (t : pystr) :
  Forall (fun ch => isspace ch = true) t -> lstrip t = [].
Proof.
  induction 1 as [|ch t Hch _ IH]; simpl; [done|]. by rewrite Hch.
Qed.

Lemma strip_empty_iff (t : pystr) :
  strip t = [] <-> Forall (fun ch => isspace ch = true) t.
Proof.
  split.
  - intros H. destruct (strip_spec t) as [(l & r & Ht & Hl & Hr) _].
    rewrite Ht, H. simpl. by apply Forall_app.
  - intros H. unfold strip. by rewrite (lstrip_blank _ H).
Qed.

Lemma In_ef_events_other e ef graph d f :
  In e (ef_events ef graph d f) ->
  (forall q, e <> EOpenRead q) /\ (forall q, e <> EUnlink q).
Proof.
  unfold ef_events, present, gate_events.
  destruct ef; [|destruct (f !! (graph ++ lit ".ef"))]; simpl;
    intros H; in_list H; subst e; split; discriminate.
Qed.

Lemma In_labels_ef_events_unlink q ef graph d f :
  ~ In (EUnlink q) (labels_ef_events ef graph d f).
Proof.
  unfold labels_ef_events, present, gate_events.
  destruct ef; [|destruct (f !! (graph ++ lit "-labelled.ef"))];
    (destruct (f !! (graph ++ lit ".nodes.count.txt")) as [[t| |]|]);
    simpl; intros H; in_list H.
Qed.

Lemma In_node2type_events_open w q force graph d f :
  ~ In (EOpenRead q) (node2type_events w force graph d f).
Proof.
  unfold node2type_events, present, gate_events. cbv zeta.
  destruct force; (destruct (f !! (graph ++ lit ".node2type.bin")) as [x|]);
    try destruct (unlink_refused w _ f) as [e|]; simpl;
    intros H; in_list H.
Qed.

(** The commands of a forced run. *)
Lemma reindex_forced_commands w ef graph s o c s' r :
  ctx_obj s = Some o -> o !! lit "config" = Some c ->
  reindex w true ef graph s = (s', r) ->
  let d := heap (with_profile c s) !!! c in
  reindex w true ef graph s = reindex w true true graph s
  /\ (exists rest,
        runs (new_events s s')
        = Rust (lit "swh-graph-index") [lit "ef"; graph] d :: rest)
  /\ (forall q, In (EExists q) (new_events s s') ->
        q = graph ++ lit ".node2type.bin")
  /\ (r = Ok tt ->
      exists node_count,
        runs (new_events s s') =
          [Rust (lit "swh-graph-index") [lit "ef"; graph] d;
           Rust (lit "swh-graph-index")
             [lit "labels-ef"; graph ++ lit "-labelled"; node_count] d;
           Rust (lit "swh-graph-node2type") [graph] d]).
Proof.
  intros Ho Hc Hrun d.
  split; [by destruct ef|].
  destruct (reindex_run_inv _ _ _ _ _ _ _ _ _ Ho Hc Hrun)
    as (s1 & rA & HA & Hrest).
  rewrite orb_true_r in *.
  apply reindex_ef_forced_inv in HA as [HhA HtA].
  rewrite with_profile_trace in HtA. fold d in HtA.
  destruct rA as [[]|e].
  2:{ destruct Hrest as [-> ->].
      rewrite (new_events_app _ _ _ HtA). split; [by eexists|].
      split; [|done]. intros q Hq. in_list Hq. }
  destruct Hrest as (s2 & rB & HB & Hrest).
  apply reindex_labels_ef_forced_inv in HB as [HhB HB].
  rewrite HhA in HB. fold d in HB.
  destruct HB as [[HtB HrB]|[n HtB]]; rewrite HtA, <- app_assoc in HtB.
  { destruct rB as [[]|e]; [done|]. destruct Hrest as [-> ->].
    rewrite (new_events_app _ _ _ HtB). split; [by eexists|].
    split; [|done]. intros q Hq. in_list Hq. }
  destruct rB as [[]|e].
  2:{ destruct Hrest as [-> ->].
      rewrite (new_events_app _ _ _ HtB). split; [by eexists|].
      split; [|done]. intros q Hq. in_list Hq. }
  apply reindex_node2type_forced_inv in Hrest.
  rewrite HhB, HhA in Hrest. fold d in Hrest. cbv zeta in Hrest.
  rewrite HtB in Hrest.
  destruct Hrest as [[HtC HrC]|(mid & Hmid & HtC)];
    rewrite <- !app_assoc in HtC; rewrite (new_events_app _ _ _ HtC).
  - split; [by eexists|]. split; [|done]. intros q Hq. in_list Hq.
  - destruct Hmid as [-> | ->]; simpl;
      (split; [by eexists|]); (split; [|by exists n]);
      intros q Hq; in_list Hq.
Qed.

(** ** The claims *)




(** C2, as stated, fails: on an empty directory a forced run starts the
    forward generator, then raises on the missing node-count file; the
    labelled and node-type generators are never started. *)
Lemma C2_counterexample :
  (reindex building_world true false (lit "g") (ready ∅)).2
  = Raise (FileNotFoundError (lit "g.nodes.count.txt"))
  /\ ~ (exists cmd,
          In (ERun cmd)
             (trace (reindex building_world true false (lit "g") (ready ∅)).1)
          /\ bin cmd = lit "swh-graph-node2type")
  /\ ~ (exists cmd node_count,
          In (ERun cmd)
             (trace (reindex building_world true false (lit "g") (ready ∅)).1)
          /\ args cmd = [lit "labels-ef"; lit "g-labelled"; node_count]).
Proof.
  assert (Hrun : exists fs' h o,
    reindex building_world true false (lit "g") (ready ∅) =
      (State fs' h o
         [ELog (lit "Recreating Elias-Fano indexes on adjacency lists");
          ERun (Rust (lit "swh-graph-index") [lit "ef"; lit "g"]
                  (<[lit "profile" := PStr (lit "release")]> graph_conf));
          EOpenRead (lit "g.nodes.count.txt")],
       Raise (FileNotFoundError (lit "g.nodes.count.txt")))).
  { do 3 eexists. vm_compute. reflexivity. }
  destruct Hrun as (fs' & h & o & ->). simpl.
  split; [reflexivity|]. split.
  - intros (cmd & [H|[H|[H|[]]]] & Hbin); try discriminate H.
    injection H as <-. discriminate Hbin.
  - intros (cmd & n & [H|[H|[H|[]]]] & Hargs); try discriminate H.
    injection H as <-. discriminate Hargs.
Qed.

(** C2, amended.  With [force] set, no step asks whether its artifact
    exists before rebuilding it, and the [ef] flag no longer matters
    ([force] implies it).  The forward generator is always the first
    command started, and the only existence check is the one that
    precedes the unlink of the node-type map.  The labelled generator is
    started exactly when the forward generator has returned without
    error and the node-count file can then be read as text, whether
    [<prefix>-labelled.ef] exists or not.  The node-type generator is
    started exactly when, moreover, the labelled generator has returned
    without error and, if [<prefix>.node2type.bin] is there, its unlink
    is not refused; in particular it is started when the file is absent.
    A run that raises no error has started exactly the three generators,
    in the order forward index, labelled index, node-type map. *)
Theorem C2_force_rebuilds_every_step w ef graph s o c s' r :
  ctx_obj s = Some o -> o !! lit "config" = Some c ->
  reindex w true ef graph s = (s', r) ->
  let d := heap (with_profile c s) !!! c in
  reindex w true ef graph s = reindex w true true graph s
  /\ (exists rest,
        runs (new_events s s')
        = Rust (lit "swh-graph-index") [lit "ef"; graph] d :: rest)
  /\ (forall q, In (EExists q) (new_events s s') ->
        q = graph ++ lit ".node2type.bin")
  /\ (forall fA eA,
        spawn w (Rust (lit "swh-graph-index") [lit "ef"; graph] d) (fs s)
        = (fA, eA) ->
        ((exists node_count,
            In (Rust (lit "swh-graph-index")
                  [lit "labels-ef"; graph ++ lit "-labelled"; node_count] d)
               (runs (new_events s s')))
         <-> eA = None
             /\ exists t, fA !! (graph ++ lit ".nodes.count.txt") = Some (Text t))
        /\ (In (Rust (lit "swh-graph-node2type") [graph] d)
              (runs (new_events s s')) ->
            eA = None
            /\ exists t, fA !! (graph ++ lit ".nodes.count.txt") = Some (Text t))
        /\ (forall t fB eB,
              eA = None ->
              fA !! (graph ++ lit ".nodes.count.txt") = Some (Text t) ->
              spawn w (Rust (lit "swh-graph-index")
                         [lit "labels-ef"; graph ++ lit "-labelled"; strip t]
                         d) fA
              = (fB, eB) ->
              In (Rust (lit "swh-graph-index")
                    [lit "labels-ef"; graph ++ lit "-labelled"; strip t] d)
                 (runs (new_events s s'))
              /\ (In (Rust (lit "swh-graph-node2type") [graph] d)
                    (runs (new_events s s'))
                  <-> eB = None
                      /\ (is_Some (fB !! (graph ++ lit ".node2type.bin")) ->
                          unlink_refused w (graph ++ lit ".node2type.bin") fB
                          = None))))
  /\ (r = Ok tt ->
      exists node_count,
        runs (new_events s s') =
          [Rust (lit "swh-graph-index") [lit "ef"; graph] d;
           Rust (lit "swh-graph-index")
             [lit "labels-ef"; graph ++ lit "-labelled"; node_count] d;
           Rust (lit "swh-graph-node2type") [graph] d]).
Proof.
  intros Ho Hc Hrun d.
  destruct (reindex_forced_commands _ _ _ _ _ _ _ _ Ho Hc Hrun)
    as (H1 & H2 & H3 & H4).
  fold d in H2, H4.
  do 3 (split; [assumption|]). split; [|exact H4].
  intros fA eA HspA.
  destruct (reindex_events _ _ _ _ _ _ _ _ _ Ho Hc Hrun)
    as (sA & rA & HA & Hrest).
  rewrite orb_true_r in HA, Hrest. fold d in Hrest.
  rewrite reindex_ef_forced, rust_run_spec in HA. simpl in HA.
  rewrite with_profile_fs in HA. fold d in HA. rewrite HspA in HA.
  simpl in HA. injection HA as <- <-.
  destruct eA as [eA|].
  { destruct Hrest as (_ & _ & ->).
    split; [|split].
    - split; [|by intros [[=] _]].
      intros [n Hin]. by apply In_runs, In_ef_events_run in Hin as [[=] _].
    - intros Hin. by apply In_runs, In_ef_events_run in Hin as [[=] _].
    - by intros t fB eB [=]. }
  destruct Hrest as (sB & rB & HB & Hrest). cbn [fs] in Hrest.
  rewrite (reindex_labels_ef_rebuild _ _ _ _ _ (or_introl eq_refl)) in HB.
  cbv zeta in HB. simpl in HB. fold d in HB.
  destruct (fA !! (graph ++ lit ".nodes.count.txt")) as [[t| |]|] eqn:Hsc.
  2,3,4: injection HB as <- <-; destruct Hrest as (_ & _ & ->);
    (split; [|split]);
    [split; [|by intros [_ [t' [=]]]];
     intros [n Hin]; apply In_runs in Hin;
     rewrite in_app_iff, In_ef_events_run, In_labels_ef_events_run in Hin;
     simpl in Hin; rewrite Hsc in Hin;
     by destruct Hin as [[[=] _]|(_ & t' & [=] & _)]
    |intros Hin; apply In_runs in Hin;
     rewrite in_app_iff, In_ef_events_run, In_labels_ef_events_run in Hin;
     by destruct Hin as [[[=] _]|(_ & t' & _ & [=])]
    |by intros t' fB eB _ [=]].
  rewrite rust_run_spec in HB. simpl in HB. fold d in HB.
  assert (HinB :
    In (ERun (Rust (lit "swh-graph-index")
                [lit "labels-ef"; graph ++ lit "-labelled"; strip t] d))
       (labels_ef_events true graph d fA)).
  { apply In_labels_ef_events_run. split; [by left|]. by exists t. }
  destruct (spawn w (Rust (lit "swh-graph-index")
                       [lit "labels-ef"; graph ++ lit "-labelled"; strip t] d)
              fA) as [fB eB] eqn:HspB.
  simpl in HB. injection HB as <- <-.
  destruct eB as [eB|].
  { destruct Hrest as (_ & _ & ->).
    assert (HnoC : ~ In (Rust (lit "swh-graph-node2type") [graph] d)
                     (runs (ef_events true graph d (fs s)
                            ++ labels_ef_events true graph d fA))).
    { intros Hin. apply In_runs in Hin.
      rewrite in_app_iff, In_ef_events_run, In_labels_ef_events_run in Hin.
      by destruct Hin as [[[=] _]|(_ & t' & _ & [=])]. }
    split; [|split].
    - split; [|intros _; exists (strip t)]; [by eauto|].
      apply In_runs, in_app_iff. by right.
    - intros Hin. by destruct (HnoC Hin).
    - intros t' fB' eB' _ [= <-] HspB'.
      rewrite HspB in HspB'. injection HspB' as <- <-.
      split; [apply In_runs, in_app_iff; by right|].
      split; [intros Hin; by destruct (HnoC Hin)|by intros [[=] _]]. }
  destruct Hrest as (HC & ->). cbn [fs].
  assert (HinC :
    In (Rust (lit "swh-graph-node2type") [graph] d)
       (runs (ef_events true graph d (fs s)
              ++ labels_ef_events true graph d fA
              ++ node2type_events w true graph d fB))
    <-> (is_Some (fB !! (graph ++ lit ".node2type.bin")) ->
         unlink_refused w (graph ++ lit ".node2type.bin") fB = None)).
  { rewrite In_runs, !in_app_iff, In_ef_events_run, In_labels_ef_events_run,
      In_node2type_events_run. split.
    - intros [[[=] _]|[(_ & t' & _ & [=])|(_ & _ & H)]]. exact H.
    - intros H. right. right. split; [done|]. split; [by left|exact H]. }
  split; [|split].
  - split; [by eauto|]. intros _. exists (strip t).
    apply In_runs. rewrite !in_app_iff. right. by left.
  - by eauto.
  - intros t' fB' eB' _ [= <-] HspB'.
    rewrite HspB in HspB'. injection HspB' as <- <-.
    split; [apply In_runs; rewrite !in_app_iff; right; by left|].
    rewrite HinC. split; [by intros H|by intros [_ H]].
Qed.

Lemma C2_witness :
  (reindex building_world true false (lit "g") (ready padded_count)).2 = Ok tt
  /\ exists node_count,
       runs (new_events (ready padded_count)
               (reindex building_world true false (lit "g")
                  (ready padded_count)).1)
       = [Rust (lit "swh-graph-index") [lit "ef"; lit "g"]
            (heap (with_profile 0%nat (ready padded_count)) !!! 0%nat);
          Rust (lit "swh-graph-index")
            [lit "labels-ef"; lit "g" ++ lit "-labelled"; node_count]
            (heap (with_profile 0%nat (ready padded_count)) !!! 0%nat);
          Rust (lit "swh-graph-node2type") [lit "g"]
            (heap (with_profile 0%nat (ready padded_count)) !!! 0%nat)].
Proof.
  assert (Hok : (reindex building_world true false (lit "g")
                   (ready padded_count)).2 = Ok tt)
    by (vm_compute; reflexivity).
  split; [exact Hok|].
  refine (proj2 (proj2 (proj2 (proj2
    (C2_force_rebuilds_every_step building_world false (lit "g")
       (ready padded_count) {[ lit "config" := 0%nat ]} 0%nat _ _ _ _ _))))
    Hok).
  - vm_compute; reflexivity.
  - vm_compute; reflexivity.
  - apply surjective_pairing.
Defined.

(** C3. When the run reaches step B, step B has to rebuild ([ef] or
    [force] set, or [<prefix>-labelled.ef] absent) and
    [<prefix>.nodes.count.txt] is missing or cannot be read as text, the
    run raises the error of opening or reading that file right after
    trying to open it.  No file changes, the labelled-index generator is
    not started (so no node count, default or otherwise, is passed), and
    neither is the node-type generator. *)
Theorem C3_unreadable_sidecar_stops_step_B w force ef graph s o c s1 :
  ctx_obj s = Some o -> o !! lit "config" = Some c ->
  reindex_ef w (ef || force) graph c (with_profile c s) = (s1, Ok tt) ->
  ef || force = true \/ fs s1 !! (graph ++ lit "-labelled.ef") = None ->
  unreadable (fs s1 !! (graph ++ lit ".nodes.count.txt")) ->
  let s' :=
    emits (gate_events (ef || force) (graph ++ lit "-labelled.ef")
             ++ [EOpenRead (graph ++ lit ".nodes.count.txt")]) s1 in
  exists e,
    reindex w force ef graph s = (s', Raise e)
    /\ data_unavailable (graph ++ lit ".nodes.count.txt") e
    /\ fs s' = fs s1
    /\ (forall cmd, In cmd (runs (new_events s s')) ->
          args cmd = [lit "ef"; graph]).
Proof.
  intros Ho Hc HA Hgate Hbad s'.
  destruct (reindex_ef_footprint _ _ _ _ _ _ _ HA) as (lA & HtA & HlA & _).
  rewrite with_profile_trace in HtA.
  assert (Hruns : forall cmd, In cmd (runs (new_events s s')) ->
                    args cmd = [lit "ef"; graph]).
  { intros cmd Hin.
    rewrite (new_events_app s s'
               (lA ++ gate_events (ef || force) (graph ++ lit "-labelled.ef")
                   ++ [EOpenRead (graph ++ lit ".nodes.count.txt")])) in Hin
      by (unfold s', emits; simpl; by rewrite HtA, <- app_assoc).
    apply In_runs in Hin. apply in_app_or in Hin as [Hin|Hin].
    - rewrite Forall_forall in HlA. apply list_elem_of_In, HlA in Hin.
      by inversion Hin.
    - in_list Hin. }
  rewrite (reindex_steps _ _ _ _ _ _ _ Ho Hc). unfold bind.
  rewrite HA, (reindex_labels_ef_rebuild _ _ _ _ _ Hgate).
  cbv zeta. fold s'. unfold unreadable in Hbad.
  destruct (fs s1 !! (graph ++ lit ".nodes.count.txt")) as [[t| |]|] eqn:Hsc.
  - by destruct (Hbad t).
  - eexists. split; [reflexivity|]. unfold data_unavailable. auto.
  - eexists. split; [reflexivity|]. unfold data_unavailable. auto.
  - eexists. split; [reflexivity|]. unfold data_unavailable. auto.
Qed.

Lemma C3_witness :
  exists e,
    (reindex building_world false true (lit "g") (ready ∅)).2 = Raise e
    /\ data_unavailable (lit "g" ++ lit ".nodes.count.txt") e.
Proof.
  destruct (C3_unreadable_sidecar_stops_step_B building_world false true
              (lit "g") (ready ∅) {[ lit "config" := 0%nat ]} 0%nat
              (reindex_ef building_world true (lit "g") 0%nat
                 (with_profile 0%nat (ready ∅))).1)
    as (e & Hrun & Hd & _).
  - vm_compute; reflexivity.
  - vm_compute; reflexivity.
  - vm_compute; reflexivity.
  - left. reflexivity.
  - intros t. vm_compute. discriminate.
  - exists e. rewrite Hrun. split; [reflexivity | exact Hd].
Defined.

(** C4. When [<prefix>.ef], [<prefix>-labelled.ef] and
    [<prefix>.node2type.bin] all exist, a run with [force] and [ef] both
    false does three existence checks and nothing else: no generator is
    started, no file changes, the run succeeds; and running again from
    the state reached does the same. *)
Theorem C4_converged_run_is_noop w graph s o c fa fb fc :
  ctx_obj s = Some o -> o !! lit "config" = Some c ->
  fs s !! (graph ++ lit ".ef") = Some fa ->
  fs s !! (graph ++ lit "-labelled.ef") = Some fb ->
  fs s !! (graph ++ lit ".node2type.bin") = Some fc ->
  let checks := [EExists (graph ++ lit ".ef");
                 EExists (graph ++ lit "-labelled.ef");
                 EExists (graph ++ lit ".node2type.bin")] in
  let s' := emits checks (with_profile c s) in
  reindex w false false graph s = (s', Ok tt)
  /\ fs s' = fs s
  /\ new_events s s' = checks
  /\ runs (new_events s s') = []
  /\ reindex w false false graph s' = (emits checks s', Ok tt).
Proof.
  intros Ho Hc Ha Hb Hn checks s'.
  assert (Hnoop : forall s0, ctx_obj s0 = Some o -> fs s0 = fs s ->
            reindex w false false graph s0
            = (emits checks (with_profile c s0), Ok tt)).
  { intros s0 Ho0 Hfs. rewrite (reindex_steps _ _ _ _ _ _ _ Ho0 Hc).
    unfold bind. simpl.
    erewrite reindex_ef_skip by (rewrite with_profile_fs, Hfs; exact Ha).
    erewrite reindex_labels_ef_skip
      by (simpl; rewrite with_profile_fs, Hfs; exact Hb).
    erewrite reindex_node2type_skip
      by (simpl; rewrite with_profile_fs, Hfs; exact Hn).
    unfold emits, emit, checks. simpl. rewrite <- !app_assoc. reflexivity. }
  assert (Hev : new_events s s' = checks).
  { apply new_events_app. unfold s', emits. simpl.
    by rewrite with_profile_trace. }
  split; [by apply Hnoop|].
  split; [apply with_profile_fs|].
  split; [exact Hev|].
  split; [by rewrite Hev|].
  destruct (with_profile_set c s) as [v Hv].
  rewrite (Hnoop s').
  - f_equal. f_equal. apply (with_profile_keep _ _ v). exact Hv.
  - unfold s'. simpl. rewrite with_profile_ctx_obj. exact Ho.
  - unfold s'. simpl. apply with_profile_fs.
Qed.

Lemma C4_witness :
  reindex building_world false false (lit "g") (ready all_built)
  = (emits [EExists (lit "g" ++ lit ".ef");
            EExists (lit "g" ++ lit "-labelled.ef");
            EExists (lit "g" ++ lit ".node2type.bin")]
       (with_profile 0%nat (ready all_built)),
     Ok tt).
Proof.
  refine (proj1
    (C4_converged_run_is_noop building_world (lit "g") (ready all_built)
       {[ lit "config" := 0%nat ]} 0%nat
       (Text (lit "ef")) (Text (lit "ef")) (Text (lit "types")) _ _ _ _ _));
    vm_compute; reflexivity.
Defined.

(** C5. With [ef] set, [force] unset and [<prefix>.node2type.bin] on
    disk, step C is skipped: provided the index generators leave that
    file alone, the run ends with the file unchanged, unlinks nothing and
    starts no other executable than the index generator. *)
Theorem C5_ef_flag_skips_node2type w graph s s' r f :
  (forall cmd f0, bin cmd = lit "swh-graph-index" ->
     (spawn w cmd f0).1 !! (graph ++ lit ".node2type.bin")
     = f0 !! (graph ++ lit ".node2type.bin")) ->
  fs s !! (graph ++ lit ".node2type.bin") = Some f ->
  reindex w false true graph s = (s', r) ->
  fs s' !! (graph ++ lit ".node2type.bin") = Some f
  /\ (forall p, ~ In (EUnlink p) (new_events s s'))
  /\ (forall cmd, In cmd (runs (new_events s s')) ->
        bin cmd = lit "swh-graph-index").
Proof.
  intros Hw Hf Hrun.
  assert (Hgoal : fs s' !! (graph ++ lit ".node2type.bin") = Some f
                  /\ exists l, trace s' = trace s ++ l
                      /\ Forall (fun e => (forall p, e <> EUnlink p)
                                   /\ (forall cmd, e = ERun cmd ->
                                         bin cmd = lit "swh-graph-index")) l).
  { destruct (ctx_obj s) as [o|] eqn:Ho;
      [destruct (o !! lit "config") as [c|] eqn:Hc|].
    2,3: destruct (reindex_no_config w false true graph s) as [e He];
         [intros o' Ho'; congruence|];
         rewrite He in Hrun; injection Hrun as <- _;
         (split; [exact Hf|]); exists []; by rewrite app_nil_r.
    destruct (reindex_run_inv _ _ _ _ _ _ _ _ _ Ho Hc Hrun)
      as (s1 & rA & HA & Hrest).
    pose proof (reindex_ef_frame _ _ _ _ _ _ _ _ Hw HA) as HfA.
    rewrite with_profile_fs, Hf in HfA.
    destruct (reindex_ef_footprint _ _ _ _ _ _ _ HA) as (lA & HtA & HlA & _).
    rewrite with_profile_trace in HtA.
    assert (HlA' : Forall (fun e => (forall p, e <> EUnlink p)
                             /\ (forall cmd, e = ERun cmd ->
                                   bin cmd = lit "swh-graph-index")) lA).
    { eapply Forall_impl; [exact HlA|]. intros e He.
      by eapply belongs_AB_not_node2type. }
    destruct rA as [[]|e].
    2:{ destruct Hrest as [-> ->]. eauto. }
    destruct Hrest as (s2 & rB & HB & Hrest).
    pose proof (reindex_labels_ef_frame _ _ _ _ _ _ _ _ Hw HB) as HfB.
    rewrite HfA in HfB.
    destruct (reindex_labels_ef_footprint _ _ _ _ _ _ _ HB)
      as (lB & HtB & HlB & _).
    assert (HlB' : Forall (fun e => (forall p, e <> EUnlink p)
                             /\ (forall cmd, e = ERun cmd ->
                                   bin cmd = lit "swh-graph-index")) lB).
    { eapply Forall_impl; [exact HlB|]. intros e He.
      by eapply belongs_AB_not_node2type. }
    destruct rB as [[]|e].
    2:{ destruct Hrest as [-> ->]. split; [exact HfB|].
        exists (lA ++ lB). rewrite HtB, HtA, <- app_assoc.
        split; [done|]. by apply Forall_app. }
    rewrite (reindex_node2type_skip _ _ _ _ _ HfB) in Hrest.
    injection Hrest as <- _. simpl. split; [exact HfB|].
    exists (lA ++ lB ++ [EExists (graph ++ lit ".node2type.bin")]).
    rewrite HtB, HtA, <- !app_assoc. split; [done|].
    repeat (apply Forall_app; split); try done.
    constructor; [|constructor]. split; discriminate. }
  destruct Hgoal as (Hfs & l & Ht & Hl).
  rewrite (new_events_app _ _ _ Ht). rewrite Forall_forall in Hl.
  split; [exact Hfs|]. split.
  - intros p Hin. apply list_elem_of_In in Hin.
    destruct (Hl _ Hin) as [Hu _]. exact (Hu p eq_refl).
  - intros cmd Hin. apply In_runs, list_elem_of_In in Hin.
    destruct (Hl _ Hin) as [_ Hr]. by apply Hr.
Qed.

Lemma C5_witness :
  fs (reindex building_world false true (lit "g") rebuilt_start).1
    !! (lit "g" ++ lit ".node2type.bin")
  = Some (Text (lit "types")).
Proof.
  refine (proj1
    (C5_ef_flag_skips_node2type building_world (lit "g") rebuilt_start _
       (reindex building_world false true (lit "g") rebuilt_start).2
       (Text (lit "types")) _ _ (surjective_pairing _))).
  - intros cmd f0 Hbin. unfold building_world, generators. simpl.
    rewrite Hbin. rewrite decide_False by discriminate.
    destruct cmd as [b [|a1 [|a2 [|a3 [|a4 rest]]]] d]; simpl in *;
      try reflexivity.
    + apply lookup_insert_ne. intros H.
      apply (f_equal (fun l => last l)) in H.
      rewrite last_app in H. vm_compute in H. discriminate H.
    + apply lookup_insert_ne. intros H.
      apply (f_equal (fun l => last l)) in H.
      rewrite last_app in H. vm_compute in H. discriminate H.
  - vm_compute. reflexivity.
Defined.


(** C7. When [config.read] returns a configuration without the [graph]
    key, the command-line run raises [ValueError] with the message of the
    script.  Reading the configuration is the only thing that has
    happened: no existence check, no step of [reindex], no change on
    disk. *)
Theorem C7_missing_graph_stanza_fails_first
    w config_file profile force ef graph s d :
  config_read w config_file DEFAULT_CONFIG (fs s) = inr d ->
  d !! lit "graph" = None ->
  let s' := (main w config_file profile force ef graph s).1 in
  (main w config_file profile force ef graph s).2
  = Raise (ValueError (no_graph_stanza config_file))
  /\ new_events s s' = [EConfigRead config_file]
  /\ fs s' = fs s.
Proof.
  intros Hread Hgraph.
  unfold main, graph_cli_group, bind, ensure_object, config_read_call,
    dict_contains, raise.
  destruct (ctx_obj s) as [o|]; simpl; rewrite Hread; simpl;
    rewrite lookup_total_insert_eq, Hgraph; simpl;
    (split; [reflexivity|]); (split; [|reflexivity]);
    by apply new_events_app.
Qed.

Lemma C7_witness :
  (main bare_world None None false false (lit "g") (ready ∅)).2
  = Raise (ValueError (no_graph_stanza None))
  /\ new_events (ready ∅)
       (main bare_world None None false false (lit "g") (ready ∅)).1
     = [EConfigRead None]
  /\ fs (main bare_world None None false false (lit "g") (ready ∅)).1
     = fs (ready ∅).
Proof.
  apply (C7_missing_graph_stanza_fails_first bare_world None None false false
           (lit "g") (ready ∅) ∅); reflexivity.
Defined.

(** C8. Once step A has completed: any labelled-index command the run
    starts has, as node count, the text of [<prefix>.nodes.count.txt]
    stripped of the whitespace at its two ends; and whatever that text is
    (no check that it is a number), when step B has to rebuild, the
    generator is started with exactly this stripped text. *)
Theorem C8_node_count_is_stripped_sidecar w force ef graph s o c s1 :
  ctx_obj s = Some o -> o !! lit "config" = Some c ->
  reindex_ef w (ef || force) graph c (with_profile c s) = (s1, Ok tt) ->
  let s' := (reindex w force ef graph s).1 in
  (forall node_count d,
     In (Rust (lit "swh-graph-index")
           [lit "labels-ef"; graph ++ lit "-labelled"; node_count] d)
        (runs (new_events s s')) ->
     exists t,
       fs s1 !! (graph ++ lit ".nodes.count.txt") = Some (Text t)
       /\ node_count = strip t)
  /\ (forall t,
        ef || force = true \/ fs s1 !! (graph ++ lit "-labelled.ef") = None ->
        fs s1 !! (graph ++ lit ".nodes.count.txt") = Some (Text t) ->
        In (Rust (lit "swh-graph-index")
              [lit "labels-ef"; graph ++ lit "-labelled"; strip t]
              (heap s1 !!! c))
           (runs (new_events s s')))
  /\ (forall t,
        (exists l r,
           t = l ++ strip t ++ r
           /\ Forall (fun ch => isspace ch = true) l
           /\ Forall (fun ch => isspace ch = true) r)
        /\ (forall ch rest, strip t = ch :: rest -> isspace ch = false)
        /\ (forall ch rest, strip t = rest ++ [ch] -> isspace ch = false)).
Proof.
  intros Ho Hc HA s'.
  assert (Hrun : reindex w force ef graph s = (s', (reindex w force ef graph s).2))
    by apply surjective_pairing.
  destruct (reindex_anatomy _ _ _ _ _ _ _ _ _ Ho Hc Hrun)
    as (lA & lB & lC & sA & rA & Hev & HlA & HlB & HlC & HA' & _ & _ & Hrest).
  rewrite HA in HA'. injection HA' as <- <-.
  destruct Hrest as (sB & rB & HB & HnB & _).
  destruct (reindex_labels_ef_runs _ _ _ _ _ _ _ HB) as [Honly Hall].
  rewrite HnB in Honly, Hall. rewrite (new_events_app _ _ _ Hev).
  rewrite Forall_forall in HlA, HlC.
  split; [|split; [|exact strip_spec]].
  - intros n d Hin. apply In_runs in Hin.
    apply in_app_or in Hin as [Hin|Hin];
      [|apply in_app_or in Hin as [Hin|Hin]].
    + apply list_elem_of_In, HlA in Hin. inversion Hin.
    + destruct (Honly _ Hin) as (t & Ht & [= -> _]). eauto.
    + apply list_elem_of_In, HlC in Hin. inversion Hin.
  - intros t Hgate Ht. apply In_runs.
    apply in_or_app. right. apply in_or_app. left. by apply Hall.
Qed.

Lemma C8_witness :
  In (Rust (lit "swh-graph-index")
        [lit "labels-ef"; lit "g" ++ lit "-labelled"; lit "twelve nodes"]
        (<[lit "profile" := PStr (lit "release")]> graph_conf))
     (runs (new_events (ready padded_count)
              (reindex building_world false false (lit "g")
                 (ready padded_count)).1)).
Proof.
  refine (proj1 (proj2
    (C8_node_count_is_stripped_sidecar building_world false false (lit "g")
       (ready padded_count) {[ lit "config" := 0%nat ]} 0%nat
       (reindex_ef building_world false (lit "g") 0%nat
          (with_profile 0%nat (ready padded_count))).1 _ _ _))
    ([32; 9] ++ lit "twelve nodes" ++ [13; 10]) _ _);
    vm_compute; auto.
Defined.

(** C9. In a command-line run, every generator command is started with a
    configuration in which [profile] is set: to the value of [--profile]
    when the option is given, and to [release] when the option is absent
    and the configuration read has no [profile] key. *)
Theorem C9_profile_set_before_any_generator
    w config_file profile force ef graph s s' r :
  main w config_file profile force ef graph s = (s', r) ->
  forall cmd, In cmd (runs (new_events s s')) ->
    is_Some (conf cmd !! lit "profile")
    /\ (forall v, profile = Some v ->
          conf cmd !! lit "profile" = Some (PStr v))
    /\ (forall d0,
          profile = None ->
          config_read w config_file DEFAULT_CONFIG (fs s) = inr d0 ->
          d0 !! lit "profile" = None ->
          conf cmd !! lit "profile" = Some (PStr (lit "release"))).
Proof.
  unfold main, bind.
  destruct (graph_cli_group w config_file profile s) as [sg rg] eqn:Hg.
  destruct (graph_cli_group_inv _ _ _ _ _ _ Hg) as (Hev & _ & Hok).
  destruct rg as [[]|e].
  2:{ intros [= <- _] cmd Hin.
      rewrite (new_events_app _ _ _ Hev) in Hin. destruct Hin. }
  intros Hrun cmd Hin.
  destruct (Hok eq_refl) as (d0 & o & l & Hread & Ho & Hl & Hheap).
  destruct (reindex_anatomy _ _ _ _ _ _ _ _ _ Ho Hl Hrun)
    as (lA & lB & lC & sA & rA & Hev' & HlA & HlB & HlC & _).
  assert (Hall : Forall (fun e => forall c0, e = ERun c0 ->
                           conf c0 = heap (with_profile l sg) !!! l)
                   (lA ++ lB ++ lC)).
  { repeat (apply Forall_app; split);
      (eapply Forall_impl; [eassumption|]);
      intros e He c0 ->; by inversion He. }
  assert (Hconf : conf cmd = heap (with_profile l sg) !!! l).
  { rewrite Hev, <- app_assoc in Hev'.
    rewrite (new_events_app _ _ _ Hev') in Hin.
    apply In_runs in Hin. destruct Hin as [Hin|Hin]; [discriminate Hin|].
    rewrite Forall_forall in Hall.
    apply list_elem_of_In in Hin. by apply (Hall _ Hin). }
  rewrite Hconf. split; [apply with_profile_set|]. split.
  - intros v ->.
    rewrite (with_profile_keep l sg (PStr v)); rewrite Hheap;
      apply lookup_insert_eq.
  - intros d1 -> Hread' Hnone. rewrite Hread in Hread'.
    injection Hread' as <-. apply with_profile_default.
    by rewrite Hheap.
Qed.

Lemma C9_witness :
  In (Rust (lit "swh-graph-index") [lit "ef"; lit "g"]
        (<[lit "profile" := PStr (lit "release")]> graph_conf))
     (runs (new_events fresh_start
              (main building_world None None true false (lit "g")
                 fresh_start).1))
  /\ conf (Rust (lit "swh-graph-index") [lit "ef"; lit "g"]
             (<[lit "profile" := PStr (lit "release")]> graph_conf))
       !! lit "profile"
     = Some (PStr (lit "release")).
Proof.
  assert (Hin :
    In (Rust (lit "swh-graph-index") [lit "ef"; lit "g"]
          (<[lit "profile" := PStr (lit "release")]> graph_conf))
       (runs (new_events fresh_start
                (main building_world None None true false (lit "g")
                   fresh_start).1)))
    by (vm_compute; left; reflexivity).
  split; [exact Hin|].
  exact (proj2 (proj2
    (C9_profile_set_before_any_generator building_world None None true false
       (lit "g") fresh_start _ _ (surjective_pairing _) _ Hin))
    graph_conf eq_refl eq_refl eq_refl).
Defined.

(** C10. The commands a run can start are the index generator on
    [ef <prefix>], the index generator on
    [labels-ef <prefix>-labelled <node count>], and the node-type
    generator on [<prefix>]; the forward index of
    [<prefix>-transposed] is never requested. *)
Theorem C10_no_transposed_index w force ef graph s :
  forall cmd,
    In cmd (runs (new_events s (reindex w force ef graph s).1)) ->
    ((bin cmd = lit "swh-graph-index" /\ args cmd = [lit "ef"; graph])
     \/ (bin cmd = lit "swh-graph-index"
         /\ exists node_count,
              args cmd
              = [lit "labels-ef"; graph ++ lit "-labelled"; node_count])
     \/ (bin cmd = lit "swh-graph-node2type" /\ args cmd = [graph]))
    /\ args cmd <> [lit "ef"; graph ++ lit "-transposed"].
Proof.
  intros cmd Hin.
  destruct (reindex w force ef graph s) as [s' r] eqn:Hrun. simpl in Hin.
  destruct (reindex_footprint _ _ _ _ _ _ _ Hrun)
    as (d & lA & lB & lC & Ht & _ & HlA & HlB & HlC & _).
  rewrite (new_events_app _ _ _ Ht) in Hin. apply In_runs in Hin.
  assert (Hst : exists st, belongs graph d st (ERun cmd)).
  { rewrite Forall_forall in HlA, HlB, HlC.
    apply in_app_or in Hin as [Hin|Hin];
      [|apply in_app_or in Hin as [Hin|Hin]];
      apply list_elem_of_In in Hin; eauto. }
  destruct Hst as [st Hst].
  assert (Hne : graph <> graph ++ lit "-transposed").
  { intros H. apply (f_equal length) in H.
    rewrite length_app in H. simpl in H. lia. }
  inversion Hst; subst; simpl; (split; [eauto 6|]).
  - intros [= H]. by apply Hne.
  - discriminate.
  - discriminate.
Qed.

Lemma C10_witness :
  args (Rust (lit "swh-graph-index") [lit "ef"; lit "g"]
          (<[lit "profile" := PStr (lit "release")]> graph_conf))
  <> [lit "ef"; lit "g" ++ lit "-transposed"].
Proof.
  refine (proj2
    (C10_no_transposed_index building_world true false (lit "g") rebuilt_start
       (Rust (lit "swh-graph-index") [lit "ef"; lit "g"]
          (<[lit "profile" := PStr (lit "release")]> graph_conf)) _)).
  vm_compute. left. reflexivity.
Defined.

(** ** Further properties of the script *)

(** X1. When [config.read] returns a configuration with a [graph]
    section, the group callback succeeds.  The configuration becomes a
    new dictionary object, distinct from every object that existed, with
    [profile] set to the [--profile] option when one is given; the
    context object maps [config] to it and keeps its other entries.  No
    file is touched and reading the configuration is the only event. *)
Theorem graph_cli_group_stores_config w config_file profile s d0 :
  config_read w config_file DEFAULT_CONFIG (fs s) = inr d0 ->
  is_Some (d0 !! lit "graph") ->
  let l := fresh (dom (heap s)) in
  heap s !! l = None
  /\ graph_cli_group w config_file profile s =
       (State (fs s)
          (<[l := match profile with
                  | Some v => <[lit "profile" := PStr v]> d0
                  | None => d0
                  end]> (heap s))
          (Some (<[lit "config" := l]> (default ∅ (ctx_obj s))))
          (trace s ++ [EConfigRead config_file]),
        Ok tt).
Proof.
  intros Hread [g Hg] l. split.
  { apply not_elem_of_dom. apply is_fresh. }
  unfold graph_cli_group, bind, ensure_object, config_read_call,
    dict_contains, ctx_obj_set, dict_set, raise, ret.
  destruct s as [f h [o|] tr]; simpl in *; rewrite Hread; simpl;
    rewrite lookup_total_insert_eq, Hg; simpl;
    destruct profile as [v|]; simpl;
    by rewrite ?lookup_total_insert_eq, ?insert_insert_eq.
Qed.

Lemma graph_cli_group_stores_config_witness :
  graph_cli_group building_world None (Some (lit "debug")) fresh_start =
    (State (fs fresh_start)
       (<[fresh (dom (heap fresh_start)) :=
            <[lit "profile" := PStr (lit "debug")]> graph_conf]>
          (heap fresh_start))
       (Some (<[lit "config" := fresh (dom (heap fresh_start))]>
                (default ∅ (ctx_obj fresh_start))))
       (trace fresh_start ++ [EConfigRead None]),
     Ok tt).
Proof.
  refine (proj2
    (graph_cli_group_stores_config building_world None (Some (lit "debug"))
       fresh_start graph_conf _ _)).
  - reflexivity.
  - vm_compute. eauto.
Defined.

(** X2. An exception raised by [config.read] ends the command-line run
    with that exception: the context object exists afterwards but has
    gained no [config] entry, no dictionary was created, no file was
    touched and [reindex] did nothing. *)
Theorem config_read_error_ends_the_run
    w config_file profile force ef graph s e :
  config_read w config_file DEFAULT_CONFIG (fs s) = inl e ->
  main w config_file profile force ef graph s =
    (State (fs s) (heap s) (Some (default ∅ (ctx_obj s)))
       (trace s ++ [EConfigRead config_file]),
     Raise e).
Proof.
  intros Hread.
  unfold main, graph_cli_group, bind, ensure_object, config_read_call.
  destruct s as [f h [o|] tr]; simpl in *; by rewrite Hread.
Qed.

Lemma config_read_error_ends_the_run_witness :
  main unreadable_config_world (Some (lit "swh.yml")) None true false
    (lit "g") fresh_start
  = (State (fs fresh_start) (heap fresh_start)
       (Some (default ∅ (ctx_obj fresh_start)))
       (trace fresh_start ++ [EConfigRead (Some (lit "swh.yml"))]),
     Raise (OtherError (lit "cannot parse"))).
Proof.
  apply (config_read_error_ends_the_run unreadable_config_world
           (Some (lit "swh.yml")) None true false (lit "g") fresh_start
           (OtherError (lit "cannot parse"))).
  reflexivity.
Defined.

(** X3. [reindex] without a configuration in the context raises at once:
    [KeyError] on [config] when the context object has no such entry,
    [TypeError] when there is no context object.  Nothing is probed,
    logged or started, and the state is unchanged. *)
Theorem reindex_without_config_raises w force ef graph s :
  (ctx_obj s = None ->
   reindex w force ef graph s = (s, Raise TypeError))
  /\ (forall o, ctx_obj s = Some o -> o !! lit "config" = None ->
      reindex w force ef graph s = (s, Raise (KeyError (lit "config")))).
Proof.
  split; [intros H|intros o Ho Hc];
    unfold reindex, ctx_obj_get; unfold bind at 1; cbv beta.
  - by rewrite H.
  - by rewrite Ho, Hc.
Qed.

(** X4. A run of [reindex] leaves the context object alone and changes
    the configuration dictionary only by adding [profile = release] when
    the key is missing: a profile already there is kept, every other key
    and every other object is untouched. *)
Theorem reindex_only_defaults_the_profile w force ef graph s o c s' r :
  ctx_obj s = Some o -> o !! lit "config" = Some c ->
  reindex w force ef graph s = (s', r) ->
  ctx_obj s' = ctx_obj s
  /\ heap s' =
       match (heap s !!! c) !! lit "profile" with
       | Some _ => heap s
       | None =>
           <[c := <[lit "profile" := PStr (lit "release")]> (heap s !!! c)]>
             (heap s)
       end.
Proof.
  intros Ho Hc Hrun.
  destruct (reindex_heap_ctx _ _ _ _ _ _ _ _ _ Ho Hc Hrun) as [-> ->].
  split; [done|]. unfold with_profile.
  by destruct ((heap s !!! c) !! lit "profile").
Qed.

Lemma reindex_only_defaults_the_profile_witness :
  ctx_obj (reindex building_world true false (lit "g") rebuilt_start).1
  = ctx_obj rebuilt_start.
Proof.
  refine (proj1
    (reindex_only_defaults_the_profile building_world true false (lit "g")
       rebuilt_start {[ lit "config" := 0%nat ]} 0%nat _ _ _ _
       (surjective_pairing _))); reflexivity.
Defined.

(** X5. In a command-line run every generator receives the configuration
    that [config.read] returned, changed on the [profile] key only: the
    [--profile] option if given, else the profile of the configuration,
    else [release]. *)
Theorem generators_receive_the_configuration
    w config_file profile force ef graph s s' r d0 :
  config_read w config_file DEFAULT_CONFIG (fs s) = inr d0 ->
  main w config_file profile force ef graph s = (s', r) ->
  forall cmd, In cmd (runs (new_events s s')) ->
    conf cmd = resolved_conf profile d0
    /\ (forall k, k <> lit "profile" -> conf cmd !! k = d0 !! k).
Proof.
  intros Hread. unfold main, bind.
  destruct (graph_cli_group w config_file profile s) as [sg rg] eqn:Hg.
  destruct (graph_cli_group_inv _ _ _ _ _ _ Hg) as (Hev & _ & Hok).
  destruct rg as [[]|e].
  2:{ intros [= <- _] cmd Hin.
      rewrite (new_events_app _ _ _ Hev) in Hin. destruct Hin. }
  intros Hrun cmd Hin.
  destruct (Hok eq_refl) as (d1 & o & l & Hread' & Ho & Hl & Hheap).
  rewrite Hread in Hread'. injection Hread' as <-.
  destruct (reindex_anatomy _ _ _ _ _ _ _ _ _ Ho Hl Hrun)
    as (lA & lB & lC & sA & rA & Hev' & HlA & HlB & HlC & _).
  assert (Hall : Forall (fun e => forall c0, e = ERun c0 ->
                           conf c0 = heap (with_profile l sg) !!! l)
                   (lA ++ lB ++ lC)).
  { repeat (apply Forall_app; split);
      (eapply Forall_impl; [eassumption|]);
      intros e He c0 ->; by inversion He. }
  assert (Hconf : conf cmd = heap (with_profile l sg) !!! l).
  { rewrite Hev, <- app_assoc in Hev'.
    rewrite (new_events_app _ _ _ Hev') in Hin.
    apply In_runs in Hin. destruct Hin as [Hin|Hin]; [discriminate Hin|].
    rewrite Forall_forall in Hall.
    apply list_elem_of_In in Hin. by apply (Hall _ Hin). }
  assert (Hres : heap (with_profile l sg) !!! l = resolved_conf profile d0).
  { unfold with_profile, resolved_conf. rewrite Hheap.
    destruct profile as [v|].
    - by rewrite lookup_insert_eq.
    - destruct (d0 !! lit "profile"); [done|].
      simpl. by rewrite lookup_total_insert_eq. }
  rewrite Hconf, Hres. split; [done|].
  intros k Hk. unfold resolved_conf.
  destruct profile as [v|]; [by rewrite lookup_insert_ne|].
  destruct (d0 !! lit "profile"); [done|by rewrite lookup_insert_ne].
Qed.

Lemma generators_receive_the_configuration_witness :
  conf (Rust (lit "swh-graph-index") [lit "ef"; lit "g"]
          (<[lit "profile" := PStr (lit "release")]> graph_conf))
  = resolved_conf None graph_conf.
Proof.
  refine (proj1
    (generators_receive_the_configuration building_world None None true false
       (lit "g") fresh_start _ _ graph_conf _ (surjective_pairing _) _ _)).
  - reflexivity.
  - vm_compute. left. reflexivity.
Defined.

(** X6. In a run that found its configuration, the forward-index
    generator is started if and only if [ef] or [force] is set or
    [<prefix>.ef] is absent when the run starts. *)
Theorem forward_generator_started_iff w force ef graph s o c s' r :
  ctx_obj s = Some o -> o !! lit "config" = Some c ->
  reindex w force ef graph s = (s', r) ->
  In (Rust (lit "swh-graph-index") [lit "ef"; graph]
        (heap (with_profile c s) !!! c))
     (runs (new_events s s'))
  <-> (ef || force = true \/ fs s !! (graph ++ lit ".ef") = None).
Proof.
  intros Ho Hc Hrun.
  destruct (reindex_events _ _ _ _ _ _ _ _ _ Ho Hc Hrun)
    as (sA & rA & HA & Hrest).
  rewrite In_runs.
  destruct rA as [[]|e]; [|destruct Hrest as (_ & _ & ->)].
  2:{ rewrite In_ef_events_run. naive_solver. }
  destruct Hrest as (sB & rB & HB & Hrest).
  destruct rB as [[]|e]; [destruct Hrest as (_ & ->)
                         |destruct Hrest as (_ & _ & ->)];
    rewrite ?in_app_iff, In_ef_events_run, In_labels_ef_events_run,
      ?In_node2type_events_run; naive_solver.
Qed.

Lemma forward_generator_started_iff_witness :
  In (Rust (lit "swh-graph-index") [lit "ef"; lit "g"]
        (heap (with_profile 0%nat (ready padded_count)) !!! 0%nat))
     (runs (new_events (ready padded_count)
              (reindex building_world false false (lit "g")
                 (ready padded_count)).1)).
Proof.
  refine (proj2
    (forward_generator_started_iff building_world false false (lit "g")
       (ready padded_count) {[ lit "config" := 0%nat ]} 0%nat _ _
       _ _ (surjective_pairing _)) _).
  - reflexivity.
  - reflexivity.
  - right. vm_compute. reflexivity.
Defined.

(** X7. A run starts at most three commands: at most one forward-index
    command, then at most one labelled-index command, then at most one
    node-type command, all with the same configuration. *)
Theorem at_most_one_command_per_generator w force ef graph s :
  exists d rA rB rC,
    runs (new_events s (reindex w force ef graph s).1) = rA ++ rB ++ rC
    /\ (rA = [] \/ rA = [Rust (lit "swh-graph-index") [lit "ef"; graph] d])
    /\ (rB = []
        \/ exists node_count,
             rB = [Rust (lit "swh-graph-index")
                     [lit "labels-ef"; graph ++ lit "-labelled"; node_count]
                     d])
    /\ (rC = [] \/ rC = [Rust (lit "swh-graph-node2type") [graph] d]).
Proof.
  destruct (reindex w force ef graph s) as [s' r] eqn:Hrun. simpl.
  destruct (ctx_obj s) as [o|] eqn:Ho;
    [destruct (o !! lit "config") as [c|] eqn:Hc|].
  2,3: destruct (reindex_no_config w force ef graph s) as [e He];
       [intros o' Ho'; congruence|];
       rewrite He in Hrun; injection Hrun as <- _;
       exists ∅, [], [], []; unfold new_events; rewrite drop_all; auto.
  destruct (reindex_events _ _ _ _ _ _ _ _ _ Ho Hc Hrun)
    as (sA & rA & HA & Hrest).
  set (d := heap (with_profile c s) !!! c) in *.
  exists d.
  destruct rA as [[]|e]; [|destruct Hrest as (_ & _ & ->)].
  2:{ exists (runs (ef_events (ef || force) graph d (fs s))), [], [].
      rewrite !app_nil_r. split; [done|].
      split; [apply runs_ef_events|]. auto. }
  destruct Hrest as (sB & rB & HB & Hrest).
  destruct rB as [[]|e]; [destruct Hrest as (_ & ->)
                         |destruct Hrest as (_ & _ & ->)].
  - exists (runs (ef_events (ef || force) graph d (fs s))),
      (runs (labels_ef_events (ef || force) graph d (fs sA))),
      (runs (node2type_events w force graph d (fs sB))).
    rewrite !runs_app. split; [done|].
    split; [apply runs_ef_events|].
    split; [apply runs_labels_ef_events|apply runs_node2type_events].
  - exists (runs (ef_events (ef || force) graph d (fs s))),
      (runs (labels_ef_events (ef || force) graph d (fs sA))), [].
    rewrite !runs_app, app_nil_r. split; [done|].
    split; [apply runs_ef_events|].
    split; [apply runs_labels_ef_events|auto].
Qed.

(** X8. The script itself removes no other file than
    [<prefix>.node2type.bin] and writes none: a path that the generators
    leave alone holds after the run what it held before, whatever the
    flags and however the run ends. *)
Theorem only_node2type_is_removed w force ef graph s s' r q :
  q <> graph ++ lit ".node2type.bin" ->
  (forall cmd f0, (spawn w cmd f0).1 !! q = f0 !! q) ->
  reindex w force ef graph s = (s', r) ->
  fs s' !! q = fs s !! q.
Proof.
  intros Hq Hw Hrun.
  destruct (ctx_obj s) as [o|] eqn:Ho;
    [destruct (o !! lit "config") as [c|] eqn:Hc|].
  2,3: destruct (reindex_no_config w force ef graph s) as [e He];
       [intros o' Ho'; congruence|];
       rewrite He in Hrun; by injection Hrun as <- _.
  destruct (reindex_run_inv _ _ _ _ _ _ _ _ _ Ho Hc Hrun)
    as (sA & rA & HA & Hrest).
  assert (HfA : fs sA !! q = fs s !! q).
  { rewrite <- (with_profile_fs c s).
    eapply reindex_ef_frame; [|exact HA]. intros cmd f0 _. apply Hw. }
  destruct rA as [[]|e]; [|by destruct Hrest as [-> _]].
  destruct Hrest as (sB & rB & HB & Hrest).
  assert (HfB : fs sB !! q = fs sA !! q).
  { eapply reindex_labels_ef_frame; [|exact HB]. intros cmd f0 _. apply Hw. }
  destruct rB as [[]|e]; [|destruct Hrest as [-> _]; by rewrite HfB].
  rewrite (reindex_node2type_frame _ _ _ _ _ _ _ _ Hq Hw Hrest).
  by rewrite HfB.
Qed.

Lemma only_node2type_is_removed_witness :
  fs (reindex crashing_world true true (lit "g") stale_ef).1 !! lit "g.ef"
  = fs stale_ef !! lit "g.ef".
Proof.
  refine (only_node2type_is_removed crashing_world true true (lit "g")
            stale_ef _
            (reindex crashing_world true true (lit "g") stale_ef).2
            (lit "g.ef") _ _ (surjective_pairing _)).
  - vm_compute. discriminate.
  - reflexivity.
Defined.

(** X9. Convergence.  Suppose each generator, when it succeeds, has
    written its artifact and has not removed the artifacts of the
    earlier steps.  Then a run that raises no error, whatever its flags,
    ends with the three artifacts on disk, and a plain run started from
    there only checks that they exist. *)
Theorem successful_run_converges w force ef graph s s' :
  (forall d f f',
     spawn w (Rust (lit "swh-graph-index") [lit "ef"; graph] d) f = (f', None) ->
     is_Some (f' !! (graph ++ lit ".ef"))) ->
  (forall n d f f',
     spawn w (Rust (lit "swh-graph-index")
                [lit "labels-ef"; graph ++ lit "-labelled"; n] d) f
     = (f', None) ->
     is_Some (f' !! (graph ++ lit "-labelled.ef"))
     /\ (is_Some (f !! (graph ++ lit ".ef")) ->
         is_Some (f' !! (graph ++ lit ".ef")))) ->
  (forall d f f',
     spawn w (Rust (lit "swh-graph-node2type") [graph] d) f = (f', None) ->
     is_Some (f' !! (graph ++ lit ".node2type.bin"))
     /\ (is_Some (f !! (graph ++ lit ".ef")) ->
         is_Some (f' !! (graph ++ lit ".ef")))
     /\ (is_Some (f !! (graph ++ lit "-labelled.ef")) ->
         is_Some (f' !! (graph ++ lit "-labelled.ef")))) ->
  reindex w force ef graph s = (s', Ok tt) ->
  is_Some (fs s' !! (graph ++ lit ".ef"))
  /\ is_Some (fs s' !! (graph ++ lit "-labelled.ef"))
  /\ is_Some (fs s' !! (graph ++ lit ".node2type.bin"))
  /\ reindex w false false graph s' =
       (emits [EExists (graph ++ lit ".ef");
               EExists (graph ++ lit "-labelled.ef");
               EExists (graph ++ lit ".node2type.bin")] s',
        Ok tt).
Proof.
  intros WA WB WC Hrun.
  destruct (ctx_obj s) as [o|] eqn:Ho;
    [destruct (o !! lit "config") as [c|] eqn:Hc|].
  2,3: destruct (reindex_no_config w force ef graph s) as [e He];
       [intros o' Ho'; congruence|]; rewrite He in Hrun; discriminate Hrun.
  destruct (reindex_heap_ctx _ _ _ _ _ _ _ _ _ Ho Hc Hrun) as [Hctx Hheap].
  destruct (reindex_run_inv _ _ _ _ _ _ _ _ _ Ho Hc Hrun)
    as (sA & [[]|e] & HA & Hrest); [|by destruct Hrest as [_ [=]]].
  destruct Hrest as (sB & [[]|e] & HB & HC); [|by destruct HC as [_ [=]]].
  (* step A *)
  assert (HfA : is_Some (fs sA !! (graph ++ lit ".ef"))).
  { destruct (ef || force) eqn:Hef;
      [|destruct (fs (with_profile c s) !! (graph ++ lit ".ef")) as [x|] eqn:Hx].
    - rewrite reindex_ef_forced, rust_run_spec in HA.
      injection HA as <- Hr. simpl.
      destruct (spawn w _ _) as [f' [e|]] eqn:Hsp; [discriminate Hr|].
      by eapply WA.
    - rewrite (reindex_ef_skip _ _ _ _ _ Hx) in HA. injection HA as <-.
      simpl. by rewrite Hx.
    - rewrite (reindex_ef_missing _ _ _ _ Hx), rust_run_spec in HA.
      injection HA as <- Hr. simpl.
      destruct (spawn w _ _) as [f' [e|]] eqn:Hsp; [discriminate Hr|].
      by eapply WA. }
  (* step B *)
  assert (HfB : is_Some (fs sB !! (graph ++ lit "-labelled.ef"))
                /\ is_Some (fs sB !! (graph ++ lit ".ef"))).
  { destruct (decide (ef || force = true
                      \/ fs sA !! (graph ++ lit "-labelled.ef") = None))
      as [Hgo|Hskip].
    - rewrite (reindex_labels_ef_rebuild _ _ _ _ _ Hgo) in HB.
      cbv zeta in HB.
      destruct (fs sA !! (graph ++ lit ".nodes.count.txt")) as [[t| |]|];
        try discriminate HB.
      rewrite rust_run_spec in HB. injection HB as <- Hr. simpl.
      destruct (spawn w _ _) as [f' [e|]] eqn:Hsp; [discriminate Hr|].
      destruct (WB _ _ _ _ Hsp) as [H1 H2]. simpl in *. auto.
    - destruct (ef || force); [tauto|].
      destruct (fs sA !! (graph ++ lit "-labelled.ef")) as [x|] eqn:Hx;
        [|tauto].
      rewrite (reindex_labels_ef_skip _ _ _ _ _ Hx) in HB.
      injection HB as <-. simpl. by rewrite Hx. }
  destruct HfB as [HfB HfA'].
  (* step C *)
  assert (HfC : is_Some (fs s' !! (graph ++ lit ".node2type.bin"))
                /\ is_Some (fs s' !! (graph ++ lit ".ef"))
                /\ is_Some (fs s' !! (graph ++ lit "-labelled.ef"))).
  { destruct (fs sB !! (graph ++ lit ".node2type.bin")) as [x|] eqn:Hx.
    - destruct force.
      + rewrite (reindex_node2type_stale _ _ _ _ _ Hx) in HC.
        cbv zeta in HC.
        destruct (unlink_refused w _ (fs sB)); [discriminate HC|].
        rewrite rust_run_spec in HC. injection HC as <- Hr. simpl.
        destruct (spawn w _ _) as [f' [e|]] eqn:Hsp; [discriminate Hr|].
        destruct (WC _ _ _ Hsp) as (H1 & H2 & H3). simpl.
        split; [done|]. split; [apply H2|apply H3];
          (rewrite lookup_delete_ne; [done|]);
          intros H; apply app_inv_head in H; discriminate H.
      + rewrite (reindex_node2type_skip _ _ _ _ _ Hx) in HC.
        injection HC as <-. simpl. by rewrite Hx.
    - rewrite (reindex_node2type_missing _ _ _ _ _ Hx), rust_run_spec in HC.
      injection HC as <- Hr. simpl.
      destruct (spawn w _ _) as [f' [e|]] eqn:Hsp; [discriminate Hr|].
      destruct (WC _ _ _ Hsp) as (H1 & H2 & H3). simpl. auto. }
  destruct HfC as ([fc Hfc] & [fa Hfa] & [fb Hfb]).
  do 3 (split; [eauto|]).
  assert (Ho' : ctx_obj s' = Some o) by congruence.
  rewrite (reindex_all_present _ _ _ _ _ _ _ _ Ho' Hc Hfa Hfb Hfc).
  destruct (with_profile_set c s) as [v Hv].
  rewrite (with_profile_keep c s' v); [done|].
  by rewrite Hheap.
Qed.

Lemma successful_run_converges_witness :
  is_Some (fs (reindex building_world false false (lit "g")
                 (ready padded_count)).1 !! (lit "g" ++ lit ".ef"))
  /\ is_Some (fs (reindex building_world false false (lit "g")
                    (ready padded_count)).1 !! (lit "g" ++ lit "-labelled.ef"))
  /\ is_Some (fs (reindex building_world false false (lit "g")
                    (ready padded_count)).1
                !! (lit "g" ++ lit ".node2type.bin")).
Proof.
  destruct (successful_run_converges building_world false false (lit "g")
              (ready padded_count)
              (reindex building_world false false (lit "g")
                 (ready padded_count)).1)
    as (Ha & Hb & Hc & _).
  - intros d f f'. unfold building_world, generators.
    cbn [spawn bin args]. rewrite decide_False by discriminate.
    intros [= <-]. rewrite lookup_insert, decide_True by reflexivity. eauto.
  - intros n d f f'. unfold building_world, generators.
    cbn [spawn bin args]. rewrite decide_False by discriminate.
    intros [= <-]. split.
    + rewrite lookup_insert, decide_True by reflexivity. eauto.
    + rewrite lookup_insert_ne; [done|].
      intros H. vm_compute in H. discriminate H.
  - intros d f f'. unfold building_world, generators.
    cbn [spawn bin args]. rewrite decide_True by reflexivity.
    intros [= <-].
    split; [rewrite lookup_insert, decide_True by reflexivity; eauto|].
    split; (rewrite lookup_insert_ne; [done|]);
      intros H; vm_compute in H; discriminate H.
  - vm_compute. reflexivity.
  - auto.
Defined.

(** X10. A node-count file that is empty or holds only whitespace does
    not stop the run: when step B rebuilds, the labelled-index generator
    is started with the empty string as node count.  The node count
    passed is empty only for such a file. *)
Theorem blank_node_count_is_passed_empty w force ef graph s o c s1 t :
  ctx_obj s = Some o -> o !! lit "config" = Some c ->
  reindex_ef w (ef || force) graph c (with_profile c s) = (s1, Ok tt) ->
  ef || force = true \/ fs s1 !! (graph ++ lit "-labelled.ef") = None ->
  fs s1 !! (graph ++ lit ".nodes.count.txt") = Some (Text t) ->
  (Forall (fun ch => isspace ch = true) t ->
   In (Rust (lit "swh-graph-index")
         [lit "labels-ef"; graph ++ lit "-labelled"; []]
         (heap (with_profile c s) !!! c))
      (runs (new_events s (reindex w force ef graph s).1)))
  /\ (In (Rust (lit "swh-graph-index")
            [lit "labels-ef"; graph ++ lit "-labelled"; []]
            (heap (with_profile c s) !!! c))
         (runs (new_events s (reindex w force ef graph s).1)) ->
      Forall (fun ch => isspace ch = true) t).
Proof.
  intros Ho Hc HA Hgate Hsc.
  destruct (reindex w force ef graph s) as [s' r] eqn:Hrun. simpl.
  destruct (reindex_events _ _ _ _ _ _ _ _ _ Ho Hc Hrun)
    as (sA & rA & HA' & Hrest).
  rewrite HA in HA'. injection HA' as <- <-.
  destruct Hrest as (sB & rB & HB & Hrest).
  rewrite In_runs.
  assert (Hlab :
    In (ERun (Rust (lit "swh-graph-index")
                [lit "labels-ef"; graph ++ lit "-labelled"; []]
                (heap (with_profile c s) !!! c)))
       (labels_ef_events (ef || force) graph
          (heap (with_profile c s) !!! c) (fs s1))
    <-> Forall (fun ch => isspace ch = true) t).
  { rewrite In_labels_ef_events_run, <- strip_empty_iff. split.
    - intros (_ & t' & Ht' & [= Hs]). congruence.
    - intros Hs. split; [done|]. exists t. by rewrite Hs. }
  destruct rB as [[]|e]; [destruct Hrest as (_ & ->)
                         |destruct Hrest as (_ & _ & ->)];
    rewrite ?in_app_iff, Hlab, In_ef_events_run, ?In_node2type_events_run;
    split; try tauto.
  - intros [[[=] _]|[H|[[=] _]]]. exact H.
  - intros [[[=] _]|H]. exact H.
Qed.

Lemma blank_node_count_is_passed_empty_witness :
  In (Rust (lit "swh-graph-index")
        [lit "labels-ef"; lit "g" ++ lit "-labelled"; []]
        (heap (with_profile 0%nat
                 (ready {[ lit "g.nodes.count.txt" := Text [32; 10] ]}))
           !!! 0%nat))
     (runs (new_events (ready {[ lit "g.nodes.count.txt" := Text [32; 10] ]})
              (reindex building_world false false (lit "g")
                 (ready {[ lit "g.nodes.count.txt" := Text [32; 10] ]})).1)).
Proof.
  refine (proj1
    (blank_node_count_is_passed_empty building_world false false (lit "g")
       (ready {[ lit "g.nodes.count.txt" := Text [32; 10] ]})
       {[ lit "config" := 0%nat ]} 0%nat
       (reindex_ef building_world false (lit "g") 0%nat
          (with_profile 0%nat
             (ready {[ lit "g.nodes.count.txt" := Text [32; 10] ]}))).1
       [32; 10] _ _ _ _ _) _).
  - reflexivity.
  - reflexivity.
  - vm_compute. reflexivity.
  - right. vm_compute. reflexivity.
  - vm_compute. reflexivity.
  - repeat constructor.
Defined.

(** X11. Once step A has completed, the labelled-index generator is
    started if and only if step B has to rebuild ([ef] or [force] set, or
    [<prefix>-labelled.ef] absent) and [<prefix>.nodes.count.txt] can be
    read as text.  The node-count file is opened exactly when step B has
    to rebuild, and no other file is ever opened. *)
Theorem labelled_generator_started_iff w force ef graph s o c s1 s' r :
  ctx_obj s = Some o -> o !! lit "config" = Some c ->
  reindex_ef w (ef || force) graph c (with_profile c s) = (s1, Ok tt) ->
  reindex w force ef graph s = (s', r) ->
  let rebuild :=
    ef || force = true \/ fs s1 !! (graph ++ lit "-labelled.ef") = None in
  ((exists node_count,
      In (Rust (lit "swh-graph-index")
            [lit "labels-ef"; graph ++ lit "-labelled"; node_count]
            (heap (with_profile c s) !!! c))
         (runs (new_events s s')))
   <-> rebuild
       /\ exists t, fs s1 !! (graph ++ lit ".nodes.count.txt") = Some (Text t))
  /\ (In (EOpenRead (graph ++ lit ".nodes.count.txt")) (new_events s s')
      <-> rebuild)
  /\ (forall q, In (EOpenRead q) (new_events s s') ->
        q = graph ++ lit ".nodes.count.txt").
Proof.
  intros Ho Hc HA Hrun rebuild. unfold rebuild.
  destruct (reindex_events _ _ _ _ _ _ _ _ _ Ho Hc Hrun)
    as (sA & rA & HA' & Hrest).
  rewrite HA in HA'. injection HA' as <- <-.
  destruct Hrest as (sB & rB & HB & Hrest).
  assert (HnoA : forall q, ~ In (EOpenRead q)
                   (ef_events (ef || force) graph
                      (heap (with_profile c s) !!! c) (fs s))).
  { intros q Hin. apply In_ef_events_other in Hin as [Hin _].
    by apply (Hin q). }
  pose proof (In_node2type_events_open w) as HnoC.
  destruct rB as [[]|e]; [destruct Hrest as (_ & ->)
                         |destruct Hrest as (_ & _ & ->)];
    (split; [|split]).
  - split.
    + intros (n & Hin). apply In_runs in Hin.
      rewrite !in_app_iff, In_ef_events_run, In_labels_ef_events_run,
        In_node2type_events_run in Hin. naive_solver.
    + intros (Hg & t & Ht). exists (strip t). apply In_runs.
      rewrite !in_app_iff, In_labels_ef_events_run. naive_solver.
  - rewrite !in_app_iff, In_labels_ef_events_open. naive_solver.
  - intros q. rewrite !in_app_iff, In_labels_ef_events_open. naive_solver.
  - split.
    + intros (n & Hin). apply In_runs in Hin.
      rewrite !in_app_iff, In_ef_events_run, In_labels_ef_events_run in Hin.
      naive_solver.
    + intros (Hg & t & Ht). exists (strip t). apply In_runs.
      rewrite !in_app_iff, In_labels_ef_events_run. naive_solver.
  - rewrite !in_app_iff, In_labels_ef_events_open. naive_solver.
  - intros q. rewrite !in_app_iff, In_labels_ef_events_open. naive_solver.
Qed.

Lemma labelled_generator_started_iff_witness :
  In (EOpenRead (lit "g" ++ lit ".nodes.count.txt"))
     (new_events (ready padded_count)
        (reindex building_world false false (lit "g")
           (ready padded_count)).1).
Proof.
  refine (proj2 (proj1 (proj2
    (labelled_generator_started_iff building_world false false (lit "g")
       (ready padded_count) {[ lit "config" := 0%nat ]} 0%nat
       (reindex_ef building_world false (lit "g") 0%nat
          (with_profile 0%nat (ready padded_count))).1
       _ _ _ _ _ (surjective_pairing _)))) _).
  - reflexivity.
  - reflexivity.
  - vm_compute. reflexivity.
  - right. vm_compute. reflexivity.
Defined.

(** X12. Once steps A and B have completed, the node-type generator is
    started if and only if [force] is set or [<prefix>.node2type.bin] is
    absent, and, when the file is there, its unlink is not refused.  The
    file is unlinked exactly when [force] is set and the file is there;
    [ef] plays no part. *)
Theorem node2type_generator_started_iff w force ef graph s o c s1 s2 s' r :
  ctx_obj s = Some o -> o !! lit "config" = Some c ->
  reindex_ef w (ef || force) graph c (with_profile c s) = (s1, Ok tt) ->
  reindex_labels_ef w (ef || force) graph c s1 = (s2, Ok tt) ->
  reindex w force ef graph s = (s', r) ->
  let p := graph ++ lit ".node2type.bin" in
  (In (Rust (lit "swh-graph-node2type") [graph]
         (heap (with_profile c s) !!! c))
      (runs (new_events s s'))
   <-> (force = true \/ fs s2 !! p = None)
       /\ (is_Some (fs s2 !! p) -> unlink_refused w p (fs s2) = None))
  /\ (In (EUnlink p) (new_events s s')
      <-> force = true /\ is_Some (fs s2 !! p)).
Proof.
  intros Ho Hc HA HB Hrun p. unfold p.
  destruct (reindex_events _ _ _ _ _ _ _ _ _ Ho Hc Hrun)
    as (sA & rA & HA' & Hrest).
  rewrite HA in HA'. injection HA' as <- <-.
  destruct Hrest as (sB & rB & HB' & Hrest).
  rewrite HB in HB'. injection HB' as <- <-.
  destruct Hrest as (_ & ->).
  assert (HnoA : ~ In (EUnlink (graph ++ lit ".node2type.bin"))
                   (ef_events (ef || force) graph
                      (heap (with_profile c s) !!! c) (fs s))).
  { intros Hin. apply In_ef_events_other in Hin as [_ Hin].
    by apply (Hin (graph ++ lit ".node2type.bin")). }
  pose proof (In_labels_ef_events_unlink (graph ++ lit ".node2type.bin")
                (ef || force) graph (heap (with_profile c s) !!! c) (fs s1))
    as HnoB.
  split.
  - rewrite In_runs, !in_app_iff, In_ef_events_run, In_labels_ef_events_run,
      In_node2type_events_run. naive_solver.
  - rewrite !in_app_iff, In_node2type_events_unlink. naive_solver.
Qed.

Lemma node2type_generator_started_iff_witness :
  In (EUnlink (lit "g" ++ lit ".node2type.bin"))
     (new_events rebuilt_start
        (reindex building_world true false (lit "g") rebuilt_start).1).
Proof.
  refine (proj2 (proj2
    (node2type_generator_started_iff building_world true false (lit "g")
       rebuilt_start {[ lit "config" := 0%nat ]} 0%nat
       (reindex_ef building_world true (lit "g") 0%nat
          (with_profile 0%nat rebuilt_start)).1
       (reindex_labels_ef building_world true (lit "g") 0%nat
          (reindex_ef building_world true (lit "g") 0%nat
             (with_profile 0%nat rebuilt_start)).1).1
       _ _ _ _ _ _ (surjective_pairing _))) _).
  - reflexivity.
  - reflexivity.
  - vm_compute. reflexivity.
  - vm_compute. reflexivity.
  - split; [reflexivity|]. vm_compute. eauto.
Defined.

(** X13. Log lines announce what is rebuilt and nothing else.  In a run
    that found its configuration, the line about the adjacency lists is
    logged exactly when the forward-index generator is started and the
    line about the arc labels exactly when the labelled-index generator
    is started; the node-type generator is started only after its line
    was logged; and no other message is ever logged. *)
Theorem log_lines_announce_rebuilds w force ef graph s o c s' r :
  ctx_obj s = Some o -> o !! lit "config" = Some c ->
  reindex w force ef graph s = (s', r) ->
  let d := heap (with_profile c s) !!! c in
  (In (ELog (lit "Recreating Elias-Fano indexes on adjacency lists"))
      (new_events s s')
   <-> In (Rust (lit "swh-graph-index") [lit "ef"; graph] d)
         (runs (new_events s s')))
  /\ (In (ELog (lit "Recreating Elias-Fano indexes on arc labels"))
        (new_events s s')
      <-> exists node_count,
            In (Rust (lit "swh-graph-index")
                  [lit "labels-ef"; graph ++ lit "-labelled"; node_count] d)
               (runs (new_events s s')))
  /\ (In (Rust (lit "swh-graph-node2type") [graph] d)
        (runs (new_events s s')) ->
      In (ELog (lit "Creating node2type.bin")) (new_events s s'))
  /\ (forall m, In (ELog m) (new_events s s') ->
        m = lit "Recreating Elias-Fano indexes on adjacency lists"
        \/ m = lit "Recreating Elias-Fano indexes on arc labels"
        \/ m = lit "Creating node2type.bin").
Proof.
  intros Ho Hc Hrun d.
  destruct (reindex_events _ _ _ _ _ _ _ _ _ Ho Hc Hrun)
    as (sA & rA & HA & Hrest).
  fold d in Hrest.
  assert (Hev : exists lB lC,
    new_events s s' = ef_events (ef || force) graph d (fs s) ++ lB ++ lC
    /\ (lB = [] \/ exists f, lB = labels_ef_events (ef || force) graph d f)
    /\ (lC = [] \/ exists f, lC = node2type_events w force graph d f)).
  { destruct rA as [[]|e]; [|destruct Hrest as (_ & _ & ->)].
    2:{ exists [], []. rewrite !app_nil_r. auto. }
    destruct Hrest as (sB & rB & HB & Hrest).
    destruct rB as [[]|e]; [destruct Hrest as (_ & ->)
                           |destruct Hrest as (_ & _ & ->)].
    - exists (labels_ef_events (ef || force) graph d (fs sA)),
        (node2type_events w force graph d (fs sB)).
      split; [reflexivity|]. split; right; eexists; reflexivity.
    - exists (labels_ef_events (ef || force) graph d (fs sA)), [].
      rewrite app_nil_r. split; [reflexivity|].
      split; [right; eexists; reflexivity|by left]. }
  destruct Hev as (lB & lC & -> & HlB & HlC).
  assert (HB : (forall m, In (ELog m) lB ->
                  m = lit "Recreating Elias-Fano indexes on arc labels"
                  /\ exists n,
                       In (ERun (Rust (lit "swh-graph-index")
                                   [lit "labels-ef"; graph ++ lit "-labelled"; n]
                                   d)) lB)
               /\ (forall cmd, In (ERun cmd) lB ->
                     (exists n, cmd = Rust (lit "swh-graph-index")
                                  [lit "labels-ef"; graph ++ lit "-labelled"; n]
                                  d)
                     /\ In (ELog (lit "Recreating Elias-Fano indexes on arc labels"))
                          lB)).
  { destruct HlB as [->|[f ->]]; [split; intros ? []|]. split.
    - intros m Hm. apply In_labels_ef_events_log in Hm as (-> & Hg & t & Ht).
      split; [done|]. exists (strip t).
      apply In_labels_ef_events_run. eauto.
    - intros cmd Hin.
      apply In_labels_ef_events_run in Hin as (Hg & t & Ht & ->).
      split; [eauto|]. apply In_labels_ef_events_log. eauto. }
  assert (HC : (forall m, In (ELog m) lC -> m = lit "Creating node2type.bin")
               /\ (forall cmd, In (ERun cmd) lC ->
                     cmd = Rust (lit "swh-graph-node2type") [graph] d
                     /\ In (ELog (lit "Creating node2type.bin")) lC)).
  { destruct HlC as [->|[f ->]]; [split; intros ? []|]. split.
    - intros m Hm. by apply In_node2type_events_log in Hm as (-> & _).
    - intros cmd Hin.
      apply In_node2type_events_run in Hin as (-> & Hg & _).
      split; [done|]. apply In_node2type_events_log. eauto. }
  destruct HB as [HBlog HBrun]. destruct HC as [HClog HCrun].
  split; [|split; [|split]].
  - rewrite In_runs, !in_app_iff, In_ef_events_log, In_ef_events_run. split.
    + intros [[_ H]|[H|H]]; [auto| |].
      * by destruct (HBlog _ H) as [[=] _].
      * by specialize (HClog _ H).
    + intros [[_ H]|[H|H]]; [auto| |].
      * by destruct (HBrun _ H) as [[n [=]] _].
      * by destruct (HCrun _ H) as [[=] _].
  - split.
    + rewrite !in_app_iff, In_ef_events_log. intros [[[=] _]|[H|H]].
      * destruct (HBlog _ H) as [_ [n Hn]]. exists n.
        apply In_runs. rewrite !in_app_iff. auto.
      * by specialize (HClog _ H).
    + intros [n Hin]. apply In_runs in Hin.
      rewrite !in_app_iff, In_ef_events_run in Hin.
      rewrite !in_app_iff. destruct Hin as [[[=] _]|[H|H]].
      * right. left. by destruct (HBrun _ H).
      * by destruct (HCrun _ H) as [[=] _].
  - rewrite In_runs, !in_app_iff, In_ef_events_run.
    intros [[[=] _]|[H|H]].
    + by destruct (HBrun _ H) as [[n [=]] _].
    + right. right. by destruct (HCrun _ H).
  - intros m. rewrite !in_app_iff, In_ef_events_log.
    intros [[-> _]|[H|H]]; [auto| |].
    + destruct (HBlog _ H) as [-> _]. auto.
    + rewrite (HClog _ H). auto.
Qed.

Lemma log_lines_announce_rebuilds_witness :
  In (ELog (lit "Recreating Elias-Fano indexes on adjacency lists"))
     (new_events (ready padded_count)
        (reindex building_world false false (lit "g")
           (ready padded_count)).1).
Proof.
  refine (proj2 (proj1
    (log_lines_announce_rebuilds building_world false false (lit "g")
       (ready padded_count) {[ lit "config" := 0%nat ]} 0%nat _ _
       _ _ (surjective_pairing _))) _).
  - reflexivity.
  - reflexivity.
  - vm_compute. left. reflexivity.
Defined.
